(** * Pirate Radio: the GNU Radio flow graph of [gnuradio/pirate_radio.py]

    The script builds a Qt window, five signal-processing blocks and four
    connections, and offers getters and setters for five variables.  All
    signal processing, the widget toolkit and the radio driver are external:
    the script only calls into them.  The embedding therefore keeps

    - the attributes of the [pirate_radio] instance ([self.__dict__]),
    - the ordered log of every call the script makes into an external
      library, with its receiver, its arguments and its outcome,
    - the little external state the script reads back (the persisted
      QSettings store and the window geometry), and
    - an oracle that decides which external call raises.

    Python values are dynamically typed; [pyval] is the universe of values
    the script handles. *)

From Stdlib Require Import ZArith String List Bool Lia.
From Stdlib Require Import Floats.PrimFloat Floats.SpecFloat Floats.FloatOps.
From stdpp Require Import gmap strings pretty.

Local Open Scope string_scope.
Local Open Scope Z_scope.

(** ** Values *)

Set Warnings "-register-all,-inexact-float".

(** The three callables the script itself defines. *)
Inductive closure :=
| fn_formatter      (* lambda x: str(x)           line 81  *)
| fn_sig_handler    (* def sig_handler(...)        line 185 *)
| fn_noop.          (* lambda: None                line 196 *)

Inductive pyval :=
| VNone
| VBool (b : bool)
| VInt (z : Z)
| VFloat (f : float)
| VStr (s : string)
| VBytes (b : string)            (* a QByteArray *)
| VList (l : list pyval)
| VTuple (l : list pyval)
| VObj (o : nat)                 (* an object made by an external library *)
| VSelf                          (* the pirate_radio instance *)
| VFun (c : closure)
| VConst (name : string).        (* a module constant, e.g. signal.SIGINT *)

Record exn := Exn { exc_class : string; exc_msg : string }.

Inductive res (A : Type) :=
| Ok (a : A)
| Raise (e : exn).
Arguments Ok {A} a.
Arguments Raise {A} e.

Definition TypeError (msg : string) : exn := Exn "TypeError" msg.
Definition AttributeError (msg : string) : exn := Exn "AttributeError" msg.
Definition OverflowError (msg : string) : exn := Exn "OverflowError" msg.
Definition ZeroDivisionError (msg : string) : exn := Exn "ZeroDivisionError" msg.

(** [str(exc)] for an exception carrying one message. *)
Definition exn_str (e : exn) : string := exc_msg e.

(** ** Python built-ins used by the script *)

(** *** [repr] of a float: the shortest decimal string that reads back as
    the same binary64 value, in Python's 'r' format. *)

(** [d * 10^q] compared with [n * 2^k], exactly. *)
Definition cmp_dec_bin (d q n k : Z) : comparison :=
  Z.compare (d * 10 ^ Z.max q 0 * 2 ^ Z.max (- k) 0)
            (n * 2 ^ Z.max k 0 * 10 ^ Z.max (- q) 0).

(** [floor (m * 2^e / 10^q)]. *)
Definition floor_scaled (m e q : Z) : Z :=
  (m * 2 ^ Z.max e 0 * 10 ^ Z.max (- q) 0)
  / (2 ^ Z.max (- e) 0 * 10 ^ Z.max q 0).

(** The least [p] at or above the start with [m * 2^e < 10^p]. *)
Fixpoint decpt_from (fuel : nat) (m e p : Z) : Z :=
  match fuel with
  | O => p
  | S fuel' =>
      match cmp_dec_bin 1 p m e with
      | Gt => p
      | _ => decpt_from fuel' m e (p + 1)
      end
  end.

(** Position of the decimal point: [10^(p-1) <= m * 2^e < 10^p]. *)
Definition decpt (m e : Z) : Z :=
  decpt_from 4 m e (((Z.log2 m + e) * 30103) / 100000 - 1).

(** Does [d * 10^q] round (to nearest, ties to even) to [m * 2^e]?  The
    bounds are the midpoints to the neighbouring floats, in units of
    [2^(e-2)]; the gap below a power of two is half the gap above. *)
Definition in_interval (m e d q : Z) : bool :=
  let lo := if (m =? 2 ^ 52) && (-1074 <? e) then 4 * m - 1 else 4 * m - 2 in
  let hi := 4 * m + 2 in
  let incl := Z.even m in
  let above_lo := match cmp_dec_bin d q lo (e - 2) with
                  | Gt => true | Eq => incl | Lt => false end in
  let below_hi := match cmp_dec_bin d q hi (e - 2) with
                  | Lt => true | Eq => incl | Gt => false end in
  above_lo && below_hi.

(** The [n]-digit decimal nearest to [m * 2^e] among those that read back. *)
Definition candidate (m e p n : Z) : option Z :=
  let q := p - n in
  let dl := floor_scaled m e q in
  let dh := dl + 1 in
  let closer_low := match cmp_dec_bin (dl + dh) q (2 * m) e with
                    | Gt => true
                    | Eq => Z.even dl
                    | Lt => false
                    end in
  match in_interval m e dl q, in_interval m e dh q with
  | true, true => Some (if closer_low then dl else dh)
  | true, false => Some dl
  | false, true => Some dh
  | false, false => None
  end.

Fixpoint shortest_from (fuel : nat) (m e p n : Z) : Z * Z :=
  match fuel with
  | O => (floor_scaled m e (p - n), p - n)
  | S fuel' =>
      match candidate m e p n with
      | Some d => (d, p - n)
      | None => shortest_from fuel' m e p (n + 1)
      end
  end.

Fixpoint strip_zeros (fuel : nat) (d q : Z) : Z * Z :=
  match fuel with
  | O => (d, q)
  | S fuel' =>
      if (d mod 10 =? 0) && (0 <? d)
      then strip_zeros fuel' (d / 10) (q + 1)
      else (d, q)
  end.

Definition zeros (n : Z) : string := String.concat "" (repeat "0" (Z.to_nat n)).

Definition substr_from (n : Z) (s : string) : string :=
  String.substring (Z.to_nat n) (String.length s - Z.to_nat n) s.

(** Fixed notation when [-4 < p <= 16], exponent notation otherwise. *)
Definition format_short (digits : string) (p : Z) : string :=
  let n := Z.of_nat (String.length digits) in
  if (p <=? -4) || (16 <? p) then
    let ex := p - 1 in
    let mant := String.substring 0 1 digits ++
                (if 1 <? n then "." ++ substr_from 1 digits else "") in
    mant ++ "e" ++ (if ex <? 0 then "-" else "+") ++
      (if Z.abs ex <? 10 then "0" else "") ++ pretty (Z.abs ex)
  else if p <=? 0 then "0." ++ zeros (- p) ++ digits
  else if p <? n then
    String.substring 0 (Z.to_nat p) digits ++ "." ++ substr_from p digits
  else digits ++ zeros (p - n) ++ ".0".

Definition float_repr (f : float) : string :=
  match Prim2SF f with
  | S754_nan => "nan"
  | S754_infinity false => "inf"
  | S754_infinity true => "-inf"
  | S754_zero false => "0.0"
  | S754_zero true => "-0.0"
  | S754_finite s m e =>
      let m := Z.pos m in
      let '(d, q) := shortest_from 17 m e (decpt m e) 1 in
      let '(d, q) := strip_zeros 20 d q in
      let digits := pretty d in
      (if s then "-" else "") ++
        format_short digits (Z.of_nat (String.length digits) + q)
  end.

(** *** [str] *)

(** [str(v)].  Scalars print as Python prints them; the text of any other
    value (an object's address, a container) is not a function of the model's
    value and is supplied by [opaque]. *)
Definition py_str (opaque : pyval -> string) (v : pyval) : string :=
  match v with
  | VNone => "None"
  | VBool true => "True"
  | VBool false => "False"
  | VInt z => pretty z
  | VFloat f => float_repr f
  | VStr s => s
  | _ => opaque v
  end.

(** *** Truth value, as tested by [if]. *)
Definition py_bool (v : pyval) : bool :=
  match v with
  | VNone => false
  | VBool b => b
  | VInt z => negb (z =? 0)
  | VFloat f => negb (PrimFloat.eqb f 0%float)
  | VStr s => negb (String.eqb s "")
  | VBytes b => negb (String.eqb b "")
  | VList l => match l with [] => false | _ => true end
  | VTuple l => match l with [] => false | _ => true end
  | VObj _ | VSelf | VFun _ | VConst _ => true
  end.

(** *** Arithmetic *)

(** [float(z)]: nearest binary64, [OverflowError] beyond the finite range. *)
Definition int_to_float (z : Z) : res float :=
  let f := SF2Prim (binary_normalize prec emax z 0 false) in
  if PrimFloat.is_infinity f
  then Raise (OverflowError "int too large to convert to float")
  else Ok f.

(** [v / d] for a float right operand [d]. *)
Definition truediv_float (v : pyval) (d : float) : res pyval :=
  let divide (x : float) : res pyval :=
    if PrimFloat.eqb d 0%float
    then Raise (ZeroDivisionError "float division by zero")
    else Ok (VFloat (x / d)%float) in
  match v with
  | VFloat x => divide x
  | VInt z =>
      match int_to_float z with
      | Ok x => divide x
      | Raise e => Raise e
      end
  | VBool b => divide (if b then 1%float else 0%float)
  | _ => Raise (TypeError "unsupported operand type(s) for /")
  end.

(** [z < f] for an integer and a float, compared exactly. *)
Definition int_lt_float (z : Z) (f : float) : bool :=
  match Prim2SF f with
  | S754_nan => false
  | S754_infinity s => negb s
  | S754_zero _ => z <? 0
  | S754_finite s m e =>
      let n := if s then Z.neg m else Z.pos m in
      z * 2 ^ Z.max (- e) 0 <? n * 2 ^ Z.max e 0
  end.

Definition float_lt_int (f : float) (z : Z) : bool :=
  match Prim2SF f with
  | S754_nan => false
  | S754_infinity s => s
  | S754_zero _ => 0 <? z
  | S754_finite s m e =>
      let n := if s then Z.neg m else Z.pos m in
      n * 2 ^ Z.max e 0 <? z * 2 ^ Z.max (- e) 0
  end.

(** [a < b] on numbers ([bool] counts as [int]). *)
Definition py_lt (a b : pyval) : res bool :=
  let num (v : pyval) : option (Z + float) :=
    match v with
    | VInt z => Some (inl z)
    | VBool b => Some (inl (if b then 1 else 0))
    | VFloat f => Some (inr f)
    | _ => None
    end in
  match num a, num b with
  | Some (inl x), Some (inl y) => Ok (x <? y)
  | Some (inl x), Some (inr y) => Ok (int_lt_float x y)
  | Some (inr x), Some (inl y) => Ok (float_lt_int x y)
  | Some (inr x), Some (inr y) => Ok (PrimFloat.ltb x y)
  | _, _ => Raise (TypeError "'<' not supported between instances")
  end.

(** [max(a, b)]: the second argument wins only when strictly greater. *)
Definition py_max (a b : pyval) : res pyval :=
  match py_lt a b with
  | Ok gt => Ok (if gt then b else a)
  | Raise e => Raise e
  end.

(** [min(a, b)]: the second argument wins only when strictly smaller. *)
Definition py_min (a b : pyval) : res pyval :=
  match py_lt b a with
  | Ok lt => Ok (if lt then b else a)
  | Raise e => Raise e
  end.

(** ** External calls and the state they act on *)

(** A call into an external library: the receiver ([VNone] for a module-level
    function or constructor), the name, the positional and keyword
    arguments. *)
Record call := Call {
  target : pyval;
  fname : string;
  args : list pyval;
  kwargs : list (string * pyval)
}.

Inductive outcome :=
| Returned (v : pyval)
| Created (o : nat)       (* returned a new object *)
| Raised (e : exn).

Definition event : Type := call * outcome.

Record state := State {
  (** [self.__dict__]: the newest binding of a name wins. *)
  self : list (string * pyval);
  (** Every external call made so far, newest first. *)
  trace : list event;
  (** The next unused object identity. *)
  next_obj : nat;
  (** What QSettings persists: (organization, application, key) to value. *)
  qstore : gmap (string * string * string) pyval;
  (** The geometry of the window as [saveGeometry] serialises it. *)
  geometry : pyval;
  (** Lines printed to standard error, newest first. *)
  stderr : list string;
  (** Which external call raises, given the history of calls before it. *)
  faults : list event -> call -> option exn;
  (** [str] of the values whose text the model does not determine. *)
  opaque : pyval -> string
}.

Definition with_self (f : list (string * pyval)) (s : state) : state :=
  let 'State _ t n m g e fl o := s in State f t n m g e fl o.

Definition log (ev : event) (s : state) : state :=
  let 'State d t n m g e fl o := s in State d (ev :: t) n m g e fl o.

Definition alloc (s : state) : state :=
  let 'State d t n m g e fl o := s in State d t (S n) m g e fl o.

Definition with_qstore (m : gmap (string * string * string) pyval)
    (s : state) : state :=
  let 'State d t n _ g e fl o := s in State d t n m g e fl o.

Definition with_geometry (g : pyval) (s : state) : state :=
  let 'State d t n m _ e fl o := s in State d t n m g e fl o.

Definition eprint (line : string) (s : state) : state :=
  let 'State d t n m g e fl o := s in State d t n m g (line :: e) fl o.

(** The persisted store, kept opaque to reduction. *)
Definition store_get (k : string * string * string)
    (m : gmap (string * string * string) pyval) : option pyval := m !! k.

Definition store_put (k : string * string * string) (v : pyval)
    (m : gmap (string * string * string) pyval)
    : gmap (string * string * string) pyval := <[k := v]> m.

Arguments store_get : simpl never.
Arguments store_put : simpl never.

Fixpoint lookup_attr (name : string) (d : list (string * pyval))
    : option pyval :=
  match d with
  | [] => None
  | (n, v) :: d' => if String.eqb n name then Some v else lookup_attr name d'
  end.

(** The constructor call that made object [o], searched newest first. *)
Fixpoint ctor_of (o : nat) (t : list event) : option call :=
  match t with
  | [] => None
  | (c, Created o') :: t' => if Nat.eqb o' o then Some c else ctor_of o t'
  | _ :: t' => ctor_of o t'
  end.

(** ** A state-and-exception monad: the state survives a raise *)

Definition M (A : Type) : Type := state -> res A * state.

Definition ret {A} (a : A) : M A := fun s => (Ok a, s).

Definition raise {A} (e : exn) : M A := fun s => (Raise e, s).

Definition bind {A B} (m : M A) (k : A -> M B) : M B :=
  fun s =>
    match m s with
    | (Ok a, s') => k a s'
    | (Raise e, s') => (Raise e, s')
    end.

Definition lift {A} (r : res A) : M A := fun s => (r, s).

Notation "x <- c ;; k" := (bind c (fun x => k))
  (at level 20, c at level 99, k at level 200, only parsing).
Notation "c ;; k" := (bind c (fun _ => k))
  (at level 100, k at level 200, only parsing, right associativity).

(** [try: body  except BaseException as exc: handler exc]. *)
Definition try_except (body : M unit) (handler : exn -> M unit) : M unit :=
  fun s =>
    match body s with
    | (Ok a, s') => (Ok a, s')
    | (Raise e, s') => handler e s'
    end.

(** [self.name = v]. *)
Definition setattr (name : string) (v : pyval) : M unit :=
  fun s => (Ok tt, with_self ((name, v) :: self s) s).

(** [self.name]. *)
Definition getattr (name : string) : M pyval :=
  fun s =>
    match lookup_attr name (self s) with
    | Some v => (Ok v, s)
    | None =>
        (Raise (AttributeError
                  ("'pirate_radio' object has no attribute '" ++ name ++ "'")),
         s)
    end.

(** [print(line, file=sys.stderr)]; writing to the stream is taken to
    succeed. *)
Definition print_stderr (line : string) : M unit :=
  fun s => (Ok tt, eprint line s).

(** An external call: the oracle decides whether it raises; otherwise it
    returns [result] and has [effect] on the external state.  The call is
    logged with its outcome either way. *)
Definition extern (c : call) (result : state -> pyval)
    (effect : state -> state) : M pyval :=
  fun s =>
    match faults s (trace s) c with
    | Some e => (Raise e, log (c, Raised e) s)
    | None => let v := result s in (Ok v, effect (log (c, Returned v) s))
    end.

(** An external call that makes a new object. *)
Definition construct (c : call) : M pyval :=
  fun s =>
    match faults s (trace s) c with
    | Some e => (Raise e, log (c, Raised e) s)
    | None =>
        let o := next_obj s in
        (Ok (VObj o), alloc (log (c, Created o) s))
    end.

(** [module.f(args, kwargs)], a constructor or factory. *)
Definition new_ (f : string) (a : list pyval) (kw : list (string * pyval))
    : M pyval :=
  construct (Call VNone f a kw).

(** [module.f(args, kwargs)], result unused. *)
Definition call_ (f : string) (a : list pyval) (kw : list (string * pyval))
    : M unit :=
  extern (Call VNone f a kw) (fun _ => VNone) (fun s => s) ;; ret tt.

Definition is_object (v : pyval) : bool :=
  match v with
  | VObj _ | VSelf => true
  | _ => false
  end.

(** [recv.m(args)] with a result and an effect; a receiver that is not an
    object has no such method. *)
Definition method (recv : pyval) (m : string) (a : list pyval)
    (result : state -> pyval) (effect : state -> state) : M pyval :=
  if is_object recv
  then extern (Call recv m a []) result effect
  else raise (AttributeError ("object has no attribute '" ++ m ++ "'")).

(** [recv.m(args)], result unused. *)
Definition invoke (recv : pyval) (m : string) (a : list pyval) : M unit :=
  method recv m a (fun _ => VNone) (fun s => s) ;; ret tt.

(** The (organization, application) pair a QSettings object was made with. *)
Definition settings_scope (recv : pyval) (s : state)
    : option (string * string) :=
  match recv with
  | VObj o =>
      match ctor_of o (trace s) with
      | Some (Call _ "Qt.QSettings" [VStr org; VStr app] _) => Some (org, app)
      | _ => None
      end
  | _ => None
  end.

(** [settings.value(key)]: the persisted value, [None] when there is none. *)
Definition qsettings_value (recv : pyval) (key : string) : M pyval :=
  method recv "value" [VStr key]
    (fun s =>
       match settings_scope recv s with
       | Some (org, app) =>
           match store_get (org, app, key) (qstore s) with
           | Some v => v
           | None => VNone
           end
       | None => VNone
       end)
    (fun s => s).

(** [settings.setValue(key, v)]. *)
Definition qsettings_setValue (recv : pyval) (key : string) (v : pyval)
    : M unit :=
  method recv "setValue" [VStr key; v]
    (fun _ => VNone)
    (fun s =>
       match settings_scope recv s with
       | Some (org, app) =>
           with_qstore (store_put (org, app, key) v (qstore s)) s
       | None => s
       end) ;;
  ret tt.

(** [self.saveGeometry()]. *)
Definition saveGeometry : M pyval :=
  method VSelf "saveGeometry" [] (fun s => geometry s) (fun s => s).

(** [self.restoreGeometry(g)]. *)
Definition restoreGeometry (g : pyval) : M unit :=
  method VSelf "restoreGeometry" [g] (fun _ => VNone) (with_geometry g) ;;
  ret tt.

(** [str(v)] in the current environment. *)
Definition str (v : pyval) : M string :=
  fun s => (Ok (py_str (opaque s) v), s).

(** ** The script *)

(** [sig_handler] of [main] (lines 185-189); [tb] is the instance. *)
Definition sig_handler : M unit :=
  invoke VSelf "stop" [] ;;
  invoke VSelf "wait" [] ;;
  call_ "Qt.QApplication.quit" [] [].

(** [f(x)] for a value [f] held by the script. *)
Definition call_value (f : pyval) (x : pyval) : M pyval :=
  match f with
  | VFun fn_formatter => t <- str x ;; ret (VStr t)
  | VFun fn_sig_handler => sig_handler ;; ret VNone
  | VFun fn_noop =>
      raise (TypeError "<lambda>() takes 0 positional arguments but 1 was given")
  | _ => raise (TypeError "object is not callable")
  end.

Definition get_rf_freq : M pyval := getattr "rf_freq".

Definition get_transmit_status_label : M pyval :=
  getattr "transmit_status_label".

(** Lines 148-150. *)
Definition set_transmit_status_label (transmit_status_label : pyval)
    : M unit :=
  setattr "transmit_status_label" transmit_status_label ;;
  label <- getattr "_transmit_status_label_label" ;;
  formatter <- getattr "_transmit_status_label_formatter" ;;
  v <- getattr "transmit_status_label" ;;
  formatted <- call_value formatter v ;;
  text <- str formatted ;;
  qarg <- new_ "Qt.Q_ARG" [VStr "QString"; VStr text] [] ;;
  call_ "Qt.QMetaObject.invokeMethod" [label; VStr "setText"; qarg] [].

(** Lines 140-143. *)
Definition set_rf_freq (rf_freq : pyval) : M unit :=
  setattr "rf_freq" rf_freq ;;
  f <- getattr "rf_freq" ;;
  mhz <- lift (truediv_float f 1e6) ;;
  text <- str mhz ;;
  set_transmit_status_label (VStr (text ++ " MHz")) ;;
  sink <- getattr "soapy_hackrf_sink_0" ;;
  f <- getattr "rf_freq" ;;
  invoke sink "set_frequency" [VInt 0; f].

Definition get_rf_rate : M pyval := getattr "rf_rate".

(** Lines 155-157. *)
Definition set_rf_rate (rf_rate : pyval) : M unit :=
  setattr "rf_rate" rf_rate ;;
  sink <- getattr "soapy_hackrf_sink_0" ;;
  r <- getattr "rf_rate" ;;
  invoke sink "set_sample_rate" [VInt 0; r].

Definition get_quad_rate : M pyval := getattr "quad_rate".

Definition set_quad_rate (quad_rate : pyval) : M unit :=
  setattr "quad_rate" quad_rate.

Definition get_audio_rate : M pyval := getattr "audio_rate".

Definition set_audio_rate (audio_rate : pyval) : M unit :=
  setattr "audio_rate" audio_rate.

(** Lines 37-40. *)
Definition init_icon : M unit :=
  try_except
    (icon <- new_ "Qt.QIcon.fromTheme" [VStr "gnuradio-grc"] [] ;;
     invoke VSelf "setWindowIcon" [icon])
    (fun exc => print_stderr ("Qt GUI: Could not set Icon: " ++ exn_str exc)).

(** Lines 55-60. *)
Definition init_geometry : M unit :=
  try_except
    (settings <- getattr "settings" ;;
     geometry <- qsettings_value settings "geometry" ;;
     if py_bool geometry then restoreGeometry geometry else ret tt)
    (fun exc =>
       print_stderr ("Qt GUI: Could not restore geometry: " ++ exn_str exc)).

(** Lines 33-61: the window. *)
Definition init_window : M unit :=
  call_ "gr.top_block.__init__" [VSelf; VStr "Pirate Radio"]
        [("catch_exceptions", VBool true)] ;;
  call_ "Qt.QWidget.__init__" [VSelf] [] ;;
  invoke VSelf "setWindowTitle" [VStr "Pirate Radio"] ;;
  call_ "qtgui.util.check_set_qss" [] [] ;;
  init_icon ;;
  o <- new_ "Qt.QVBoxLayout" [] [] ;; setattr "top_scroll_layout" o ;;
  l <- getattr "top_scroll_layout" ;; invoke VSelf "setLayout" [l] ;;
  o <- new_ "Qt.QScrollArea" [] [] ;; setattr "top_scroll" o ;;
  t <- getattr "top_scroll" ;;
  invoke t "setFrameStyle" [VConst "Qt.QFrame.NoFrame"] ;;
  l <- getattr "top_scroll_layout" ;; t <- getattr "top_scroll" ;;
  invoke l "addWidget" [t] ;;
  t <- getattr "top_scroll" ;; invoke t "setWidgetResizable" [VBool true] ;;
  o <- new_ "Qt.QWidget" [] [] ;; setattr "top_widget" o ;;
  t <- getattr "top_scroll" ;; w <- getattr "top_widget" ;;
  invoke t "setWidget" [w] ;;
  w <- getattr "top_widget" ;;
  o <- new_ "Qt.QVBoxLayout" [w] [] ;; setattr "top_layout" o ;;
  o <- new_ "Qt.QGridLayout" [] [] ;; setattr "top_grid_layout" o ;;
  l <- getattr "top_layout" ;; g <- getattr "top_grid_layout" ;;
  invoke l "addLayout" [g] ;;
  o <- new_ "Qt.QSettings" [VStr "gnuradio/flowgraphs"; VStr "pirate_radio"] [] ;;
  setattr "settings" o ;;
  init_geometry ;;
  o <- new_ "threading.Event" [] [] ;; setattr "flowgraph_started" o.

(** Lines 66-126: variables, blocks and connections.  The five variables
    are also locals of [__init__]; the blocks are configured from the
    locals. *)
Definition init_flowgraph : M unit :=
  let rf_freq := VFloat 102.2e6 in
  setattr "rf_freq" rf_freq ;;
  mhz <- lift (truediv_float rf_freq 1e6) ;;
  text <- str mhz ;;
  let transmit_status_label := VStr (text ++ " MHz") in
  setattr "transmit_status_label" transmit_status_label ;;
  let rf_rate := VInt 2000000 in
  setattr "rf_rate" rf_rate ;;
  let quad_rate := VInt 480000 in
  setattr "quad_rate" quad_rate ;;
  let audio_rate := VInt 48000 in
  setattr "audio_rate" audio_rate ;;
  (* the status label *)
  o <- new_ "Qt.QToolBar" [VSelf] [] ;;
  setattr "_transmit_status_label_tool_bar" o ;;
  (if py_bool VNone
   then setattr "_transmit_status_label_formatter" VNone
   else setattr "_transmit_status_label_formatter" (VFun fn_formatter)) ;;
  bar <- getattr "_transmit_status_label_tool_bar" ;;
  o <- new_ "Qt.QLabel" [VStr "Transmitting at"] [] ;;
  invoke bar "addWidget" [o] ;;
  formatter <- getattr "_transmit_status_label_formatter" ;;
  v <- getattr "transmit_status_label" ;;
  formatted <- call_value formatter v ;;
  text <- str formatted ;;
  o <- new_ "Qt.QLabel" [VStr text] [] ;;
  setattr "_transmit_status_label_label" o ;;
  bar <- getattr "_transmit_status_label_tool_bar" ;;
  label <- getattr "_transmit_status_label_label" ;;
  invoke bar "addWidget" [label] ;;
  l <- getattr "top_layout" ;;
  bar <- getattr "_transmit_status_label_tool_bar" ;;
  invoke l "addWidget" [bar] ;;
  (* the SDR sink *)
  setattr "soapy_hackrf_sink_0" VNone ;;
  let dev := VStr "driver=hackrf" in
  let stream_args := VStr "" in
  let tune_args := VList [VStr ""] in
  let settings := VList [VStr ""] in
  o <- new_ "soapy.sink"
         [dev; VStr "fc32"; VInt 1; VStr ""; stream_args; tune_args; settings]
         [] ;;
  setattr "soapy_hackrf_sink_0" o ;;
  sink <- getattr "soapy_hackrf_sink_0" ;;
  invoke sink "set_sample_rate" [VInt 0; rf_rate] ;;
  sink <- getattr "soapy_hackrf_sink_0" ;;
  invoke sink "set_bandwidth" [VInt 0; VInt 0] ;;
  sink <- getattr "soapy_hackrf_sink_0" ;;
  invoke sink "set_frequency" [VInt 0; rf_freq] ;;
  sink <- getattr "soapy_hackrf_sink_0" ;;
  invoke sink "set_gain" [VInt 0; VStr "AMP"; VBool false] ;;
  sink <- getattr "soapy_hackrf_sink_0" ;;
  lo <- lift (py_max (VInt 16) (VFloat 0.0)) ;;
  gain <- lift (py_min lo (VFloat 47.0)) ;;
  invoke sink "set_gain" [VInt 0; VStr "VGA"; gain] ;;
  (* the other four blocks *)
  o <- new_ "filter.rational_resampler_ccc" []
         [("interpolation", rf_rate); ("decimation", quad_rate);
          ("taps", VList []); ("fractional_bw", VInt 0)] ;;
  setattr "rational_resampler_xxx_1" o ;;
  o <- new_ "filter.rational_resampler_fff" []
         [("interpolation", quad_rate); ("decimation", audio_rate);
          ("taps", VList []); ("fractional_bw", VInt 0)] ;;
  setattr "rational_resampler_xxx_0" o ;;
  o <- new_ "blocks.wavfile_source"
         [VStr "audio/example_1mb.wav"; VBool true] [] ;;
  setattr "blocks_wavfile_source_0" o ;;
  o <- new_ "analog.nbfm_tx" []
         [("audio_rate", quad_rate); ("quad_rate", quad_rate);
          ("tau", VFloat 75e-6); ("max_dev", VInt 75000);
          ("fh", VFloat (-1.0))] ;;
  setattr "analog_nbfm_tx_0" o ;;
  (* connections *)
  a <- getattr "analog_nbfm_tx_0" ;; b <- getattr "rational_resampler_xxx_1" ;;
  invoke VSelf "connect" [VTuple [a; VInt 0]; VTuple [b; VInt 0]] ;;
  a <- getattr "blocks_wavfile_source_0" ;;
  b <- getattr "rational_resampler_xxx_0" ;;
  invoke VSelf "connect" [VTuple [a; VInt 0]; VTuple [b; VInt 0]] ;;
  a <- getattr "rational_resampler_xxx_0" ;; b <- getattr "analog_nbfm_tx_0" ;;
  invoke VSelf "connect" [VTuple [a; VInt 0]; VTuple [b; VInt 0]] ;;
  a <- getattr "rational_resampler_xxx_1" ;;
  b <- getattr "soapy_hackrf_sink_0" ;;
  invoke VSelf "connect" [VTuple [a; VInt 0]; VTuple [b; VInt 0]].

(** Lines 32-126. *)
Definition __init__ : M unit :=
  init_window ;;
  init_flowgraph.

(** Lines 129-135. *)
Definition closeEvent (event : pyval) : M unit :=
  o <- new_ "Qt.QSettings" [VStr "gnuradio/flowgraphs"; VStr "pirate_radio"] [] ;;
  setattr "settings" o ;;
  settings <- getattr "settings" ;;
  g <- saveGeometry ;;
  qsettings_setValue settings "geometry" g ;;
  invoke VSelf "stop" [] ;;
  invoke VSelf "wait" [] ;;
  invoke event "accept" [].

(** [top_block_cls()]: a new instance, then its [__init__]. *)
Definition pirate_radio : M unit :=
  (fun s => (Ok tt, with_self [] s)) ;;
  __init__.

(** Lines 174-198. *)
Definition main : M unit :=
  qapp <- new_ "Qt.QApplication" [VConst "sys.argv"] [] ;;
  pirate_radio ;;
  invoke VSelf "start" [] ;;
  started <- getattr "flowgraph_started" ;;
  invoke started "set" [] ;;
  invoke VSelf "show" [] ;;
  call_ "signal.signal" [VConst "signal.SIGINT"; VFun fn_sig_handler] [] ;;
  call_ "signal.signal" [VConst "signal.SIGTERM"; VFun fn_sig_handler] [] ;;
  timer <- new_ "Qt.QTimer" [] [] ;;
  invoke timer "start" [VInt 500] ;;
  invoke timer "timeout.connect" [VFun fn_noop] ;;
  invoke qapp "exec_" [].

(** ** Reading a run *)

(** The state a process starts from: nothing called, nothing allocated. *)
Definition boot (store : gmap (string * string * string) pyval)
    (geom : pyval) (f : list event -> call -> option exn)
    (o : pyval -> string) : state :=
  State [] [] 0 store geom [] f o.

(** The oracle under which no external call raises. *)
Definition no_faults : list event -> call -> option exn := fun _ _ => None.

Definition quiet (s : state) : Prop := faults s = no_faults.

(** The calls of a trace, oldest first. *)
Definition calls_of (t : list event) : list call := rev (map fst t).

(** [self.name] in state [s], if bound. *)
Definition attr (name : string) (s : state) : option pyval :=
  lookup_attr name (self s).

(** The events logged between state [s] and a later state [s'], newest
    first, and the calls among them, oldest first. *)
Definition events_since (s s' : state) : list event :=
  firstn (length (trace s') - length (trace s)) (trace s').

Definition calls_since (s s' : state) : list call :=
  calls_of (events_since s s').

(** The objects made by the events of a log, oldest first, each with the
    call that made it. *)
Definition created (t : list event) : list (call * nat) :=
  omap (fun ev : event =>
          match ev with
          | (c, Created o) => Some (c, o)
          | _ => None
          end) (rev t).

Definition named (f : string) (c : call) : bool := String.eqb (fname c) f.

(** The GNU Radio block libraries the script imports (lines 13-25):
    a call into one of them makes a signal-processing block. *)
Definition is_block (c : call) : bool :=
  String.prefix "soapy." (fname c) || String.prefix "filter." (fname c)
  || String.prefix "blocks." (fname c) || String.prefix "analog." (fname c).

(** The configuration methods of the SDR sink. *)
Definition is_sink_setter (c : call) : bool := String.prefix "set_" (fname c).

(** [self.connect((a, 0), (b, 0))]. *)
Definition connect (a b : nat) : call :=
  Call VSelf "connect" [VTuple [VObj a; VInt 0]; VTuple [VObj b; VInt 0]] [].

(** The edge a [connect] call declares, with its two port numbers. *)
Definition edge_of (c : call) : option ((nat * Z) * (nat * Z)) :=
  match c with
  | Call VSelf "connect"
      [VTuple [VObj a; VInt pa]; VTuple [VObj b; VInt pb]] [] =>
      Some ((a, pa), (b, pb))
  | _ => None
  end.

(** The edges of the straight pipeline through [blocks], all on port 0. *)
Fixpoint pipeline (blocks : list nat) : list ((nat * Z) * (nat * Z)) :=
  match blocks with
  | a :: (b :: _) as rest => ((a, 0), (b, 0)) :: pipeline rest
  | _ => []
  end.

(** The five steps of the program. *)
Inductive phase := Container | Block | Connection | Start | EventLoop.

Definition phase_of (c : call) : option phase :=
  if named "gr.top_block.__init__" c then Some Container
  else if is_block c then Some Block
  else if named "connect" c then Some Connection
  else match target c with
       | VSelf => if named "start" c then Some Start else None
       | _ => if named "exec_" c then Some EventLoop else None
       end.

(** The value of a keyword argument. *)
Definition kwarg (name : string) (c : call) : option pyval :=
  lookup_attr name (kwargs c).

(** The interpolation/decimation pair of a resampler, in lowest terms. *)
Definition ratio (c : call) : option (Z * Z) :=
  match kwarg "interpolation" c, kwarg "decimation" c with
  | Some (VInt i), Some (VInt d) => Some (i / Z.gcd i d, d / Z.gcd i d)
  | _, _ => None
  end.

(** Where the window geometry is persisted. *)
Definition geometry_key : string * string * string :=
  ("gnuradio/flowgraphs", "pirate_radio", "geometry").

(** What [settings.value("geometry")] yields in state [s]. *)
Definition stored_geometry (s : state) : pyval :=
  match store_get geometry_key (qstore s) with
  | Some v => v
  | None => VNone
  end.

(** The calls inside the two [try] statements of [__init__]. *)
Definition guarded (c : call) : bool :=
  named "Qt.QIcon.fromTheme" c || named "setWindowIcon" c
  || named "value" c || named "restoreGeometry" c.

(** The line the [except] clause prints for a guarded call that raised. *)
Definition report (ev : event) : option string :=
  match ev with
  | (c, Raised e) =>
      Some ((if named "Qt.QIcon.fromTheme" c || named "setWindowIcon" c
             then "Qt GUI: Could not set Icon: "
             else "Qt GUI: Could not restore geometry: ") ++ exn_str e)
  | _ => None
  end.

(** An instance whose label widget, formatter and sink are in place, as
    [__init__] leaves them. *)
Definition constructed (label sink : nat) (s : state) : Prop :=
  attr "_transmit_status_label_label" s = Some (VObj label)
  /\ attr "_transmit_status_label_formatter" s = Some (VFun fn_formatter)
  /\ attr "soapy_hackrf_sink_0" s = Some (VObj sink).

(** ** Reasoning about runs *)

(** [wp m Q s]: running [m] from [s] ends in a result and a state that
    satisfy [Q]. *)
Definition wp {A} (m : M A) (Q : res A -> state -> Prop) (s : state) : Prop :=
  Q (fst (m s)) (snd (m s)).

(** [m] leaves the attribute [name] as it was. *)
Definition frames (name : string) {A} (m : M A) : Prop :=
  forall s, attr name (snd (m s)) = attr name s.

(** The parts of the state outside the instance and the log. *)
Inductive part := Settings | Geometry | Stderr | Oracle.

Definition same (p : part) (s s' : state) : Prop :=
  match p with
  | Settings => qstore s' = qstore s
  | Geometry => geometry s' = geometry s
  | Stderr => stderr s' = stderr s
  | Oracle => faults s' = faults s /\ opaque s' = opaque s
  end.

(** [m] leaves the part [p] of the state as it was, whatever happens. *)
Definition keeps (p : part) {A} (m : M A) : Prop :=
  forall s, same p s (snd (m s)).

(** Every call that raised in the log [l] satisfies [P]. *)
Definition clean (P : call -> Prop) (l : list event) : Prop :=
  forall c e, In (c, Raised e) l -> P c.

(** [m] only appends to the log, and a call that raised in it without
    satisfying [P] is the last call [m] made and the exception [m] ends
    with. *)
Definition tolerates (P : call -> Prop) {A} (m : M A) : Prop :=
  forall s, exists new,
    trace (snd (m s)) = (new ++ trace s)%list
    /\ (clean P new
        \/ exists c e rest,
             new = (c, Raised e) :: rest /\ clean P rest
             /\ fst (m s) = Raise e).

(** [m] only appends to the log, and only calls satisfying [P] raise in
    it. *)
Definition raises_only (P : call -> Prop) {A} (m : M A) : Prop :=
  forall s, exists new,
    trace (snd (m s)) = (new ++ trace s)%list /\ clean P new.

(** The oracle under which only calls inside the two [try] statements may
    raise, as [g] decides. *)
Definition guarded_only (g : list event -> call -> option exn)
    : list event -> call -> option exn :=
  fun h c => if guarded c then g h c else None.

(** The oracle under which exactly the calls named [f] raise [e]. *)
Definition fails_at (f : string) (e : exn) : list event -> call -> option exn :=
  fun _ c => if named f c then Some e else None.

(** The newest call named [f] that returned, in a log. *)
Fixpoint last_call (f : string) (t : list event) : option call :=
  match t with
  | [] => None
  | (c, Returned _) :: t' => if named f c then Some c else last_call f t'
  | _ :: t' => last_call f t'
  end.

(** The log of [s'] is the log of [s] with the events [new] on top. *)
Definition appends (s s' : state) (new : list event) : Prop :=
  trace s' = (new ++ trace s)%list.

(** The calls that make a rational resampler. *)
Definition is_resampler (c : call) : bool :=
  is_block c && String.prefix "filter.rational_resampler" (fname c).

(** The containment a call sets up between a parent and a child widget or
    layout: [parent.setLayout(child)], [parent.addWidget(child)],
    [parent.addLayout(child)], [parent.setWidget(child)], and a box layout
    constructed on its parent widget. *)
Definition placement (ev : event) : option (pyval * pyval) :=
  match ev with
  | (Call parent m [child] [], Returned _) =>
      if String.eqb m "setLayout" || String.eqb m "addWidget"
         || String.eqb m "addLayout" || String.eqb m "setWidget"
      then Some (parent, child) else None
  | (Call VNone "Qt.QVBoxLayout" [parent] [], Created o) =>
      Some (parent, VObj o)
  | _ => None
  end.

(** The placements of a log, oldest first. *)
Definition placements (t : list event) : list (pyval * pyval) :=
  omap placement (rev t).

(** [b] is inside [a], through one or more placements of [l]. *)
Inductive inside (l : list (pyval * pyval)) : pyval -> pyval -> Prop :=
| inside_step a b : In (a, b) l -> inside l a b
| inside_trans a b c : In (a, b) l -> inside l b c -> inside l a c.

(** Only the container and blocks, no connection, start or event loop. *)
Definition before_wiring (ph : phase) : bool :=
  match ph with
  | Container | Block => true
  | Connection | Start | EventLoop => false
  end.

(** The sink was last tuned to [rf_freq] and last clocked at [rf_rate]. *)
Definition in_sync (s : state) : Prop :=
  exists sink f r,
    attr "soapy_hackrf_sink_0" s = Some (VObj sink)
    /\ attr "rf_freq" s = Some f /\ attr "rf_rate" s = Some r
    /\ last_call "set_frequency" (trace s)
       = Some (Call (VObj sink) "set_frequency" [VInt 0; f] [])
    /\ last_call "set_sample_rate" (trace s)
       = Some (Call (VObj sink) "set_sample_rate" [VInt 0; r] []).

(** Sample states for checking the statements on concrete runs. *)
Definition sample_opaque : pyval -> string := fun _ => "<object>".

Definition sample_boot : state :=
  boot ∅ (VBytes "geometry-bytes") no_faults sample_opaque.

(** An oracle under which the icon lookup fails. *)
Definition icon_fails : list event -> call -> option exn :=
  fun _ c =>
    if named "Qt.QIcon.fromTheme" c
    then Some (Exn "RuntimeError" "no theme")
    else None.

(** The process start at which the icon lookup fails. *)
Definition sample_icon_fault : state :=
  boot ∅ (VBytes "geometry-bytes") (guarded_only icon_fails) sample_opaque.

(** * Properties *)

Arguments float_repr : simpl never.

(** ** Attributes *)

Lemma lookup_attr_cons_ne name n v d :
  n <> name -> lookup_attr name ((n, v) :: d) = lookup_attr name d.
Proof.
  intros H. cbn. destruct (String.eqb n name) eqn:E; [|reflexivity].
  apply String.eqb_eq in E. contradiction.
Qed.

Lemma lookup_attr_cons_eq name v d :
  lookup_attr name ((name, v) :: d) = Some v.
Proof. cbn. now rewrite String.eqb_refl. Qed.

Lemma self_with_self f s : self (with_self f s) = f.
Proof. now destruct s. Qed.

Lemma self_log ev s : self (log ev s) = self s.
Proof. now destruct s. Qed.

Lemma self_alloc s : self (alloc s) = self s.
Proof. now destruct s. Qed.

Lemma self_with_qstore m s : self (with_qstore m s) = self s.
Proof. now destruct s. Qed.

Lemma self_with_geometry g s : self (with_geometry g s) = self s.
Proof. now destruct s. Qed.

Lemma self_eprint l s : self (eprint l s) = self s.
Proof. now destruct s. Qed.

(** *** Which computations leave an attribute alone *)

Create HintDb frames.

Lemma frames_ret name {A} (a : A) : frames name (ret a).
Proof. now intros s. Qed.

Lemma frames_raise name {A} e : frames name (@raise A e).
Proof. now intros s. Qed.

Lemma frames_lift name {A} (r : res A) : frames name (lift r).
Proof. now intros s. Qed.

Lemma frames_str name v : frames name (str v).
Proof. now intros s. Qed.

Lemma frames_getattr name n : frames name (getattr n).
Proof. intros s. unfold getattr. now destruct (lookup_attr n (self s)). Qed.

Lemma frames_setattr name n v : n <> name -> frames name (setattr n v).
Proof.
  intros H s. unfold attr, setattr. cbn. rewrite self_with_self.
  now apply lookup_attr_cons_ne.
Qed.

Lemma frames_print name l : frames name (print_stderr l).
Proof. intros s. unfold attr, print_stderr. cbn. now rewrite self_eprint. Qed.

Lemma frames_bind name {A B} (m : M A) (k : A -> M B) :
  frames name m -> (forall a, frames name (k a)) -> frames name (bind m k).
Proof.
  intros Hm Hk s. unfold bind. specialize (Hm s).
  destruct (m s) as [[a|e] s1]; cbn in *; [|assumption].
  now rewrite (Hk a s1).
Qed.

Lemma frames_try name body handler :
  frames name body -> (forall e, frames name (handler e)) ->
  frames name (try_except body handler).
Proof.
  intros Hm Hk s. unfold try_except. specialize (Hm s).
  destruct (body s) as [[a|e] s1]; cbn in *; [assumption|].
  now rewrite (Hk e s1).
Qed.

Lemma frames_extern name c result effect :
  (forall s, self (effect s) = self s) -> frames name (extern c result effect).
Proof.
  intros He s. unfold attr, extern.
  destruct (faults s (trace s) c); cbn; now rewrite ?He, self_log.
Qed.

Lemma frames_construct name c : frames name (construct c).
Proof.
  intros s. unfold attr, construct.
  destruct (faults s (trace s) c); cbn; now rewrite ?self_alloc, self_log.
Qed.

Lemma frames_method name recv m a result effect :
  (forall s, self (effect s) = self s) ->
  frames name (method recv m a result effect).
Proof.
  intros He. unfold method. destruct (is_object recv).
  - now apply frames_extern.
  - apply frames_raise.
Qed.

Lemma frames_new name f a kw : frames name (new_ f a kw).
Proof. apply frames_construct. Qed.

Lemma frames_call name f a kw : frames name (call_ f a kw).
Proof.
  apply frames_bind; [now apply frames_extern | intros; apply frames_ret].
Qed.

Lemma frames_invoke name recv m a : frames name (invoke recv m a).
Proof.
  apply frames_bind; [now apply frames_method | intros; apply frames_ret].
Qed.

#[local] Hint Resolve frames_ret frames_raise frames_lift frames_str
  frames_getattr frames_print frames_new frames_call frames_invoke
  : frames.
#[local] Hint Extern 1 (frames _ (bind _ _)) =>
  apply frames_bind; [|intros] : frames.
#[local] Hint Extern 1 (frames _ (setattr _ _)) =>
  apply frames_setattr; congruence : frames.

Lemma frames_sig_handler name : frames name sig_handler.
Proof. unfold sig_handler. auto 10 with frames. Qed.

Lemma frames_call_value name f x : frames name (call_value f x).
Proof.
  destruct f as [| | | | | | | | | |c|]; cbn; auto with frames.
  destruct c; auto using frames_sig_handler with frames.
Qed.

#[local] Hint Resolve frames_call_value : frames.

Lemma frames_set_transmit_status_label name v :
  "transmit_status_label" <> name -> frames name (set_transmit_status_label v).
Proof. intros H. unfold set_transmit_status_label. auto 20 with frames. Qed.

Lemma frames_set_rf_freq name v :
  "rf_freq" <> name -> "transmit_status_label" <> name ->
  frames name (set_rf_freq v).
Proof.
  intros H1 H2. unfold set_rf_freq.
  auto 20 using frames_set_transmit_status_label with frames.
Qed.

Lemma frames_set_rf_rate name v : "rf_rate" <> name -> frames name (set_rf_rate v).
Proof. intros H. unfold set_rf_rate. auto 20 with frames. Qed.

(** What a setter binds first stays bound through the rest of its body. *)
Lemma attr_after_setattr name v (k : M unit) s :
  frames name k ->
  attr name (snd ((setattr name v ;; k) s)) = Some v.
Proof.
  intros Hk. unfold bind, setattr. cbn. rewrite Hk.
  unfold attr. rewrite self_with_self. apply lookup_attr_cons_eq.
Qed.

Lemma getattr_bound name v s : attr name s = Some v -> fst (getattr name s) = Ok v.
Proof. unfold attr, getattr. now intros ->. Qed.

(** C9. For each of the five variables [rf_freq], [transmit_status_label],
    [rf_rate], [quad_rate] and [audio_rate], and every value [v]: after
    [set_X(v)], whatever the external calls of the setter do, [get_X()]
    returns [v]. *)
Theorem getter_after_setter (s : state) (v : pyval) :
  fst (get_rf_freq (snd (set_rf_freq v s))) = Ok v
  /\ fst (get_transmit_status_label (snd (set_transmit_status_label v s)))
     = Ok v
  /\ fst (get_rf_rate (snd (set_rf_rate v s))) = Ok v
  /\ fst (get_quad_rate (snd (set_quad_rate v s))) = Ok v
  /\ fst (get_audio_rate (snd (set_audio_rate v s))) = Ok v.
Proof.
  repeat split; apply getattr_bound.
  - apply attr_after_setattr.
    auto 20 using frames_set_transmit_status_label with frames.
  - apply attr_after_setattr. auto 20 with frames.
  - apply attr_after_setattr. auto 20 with frames.
  - unfold attr, set_quad_rate, setattr. cbn. rewrite self_with_self.
    apply lookup_attr_cons_eq.
  - unfold attr, set_audio_rate, setattr. cbn. rewrite self_with_self.
    apply lookup_attr_cons_eq.
Qed.

(** ** Stepping through a run *)

Lemma wp_bind {A B} (m : M A) (k : A -> M B) Q s :
  wp m (fun r s' => match r with
                    | Ok a => wp (k a) Q s'
                    | Raise e => Q (Raise e) s'
                    end) s ->
  wp (bind m k) Q s.
Proof. unfold wp, bind. destruct (m s) as [[a|e] s']; auto. Qed.

Lemma wp_try (body : M unit) handler Q s :
  wp body (fun r s' => match r with
                       | Ok a => Q (Ok a) s'
                       | Raise e => wp (handler e) Q s'
                       end) s ->
  wp (try_except body handler) Q s.
Proof. unfold wp, try_except. destruct (body s) as [[a|e] s']; auto. Qed.

Lemma wp_exec {A} (m : M A) Q s r s' :
  m s = (r, s') -> Q r s' -> wp m Q s.
Proof. intros E H. unfold wp. rewrite E. exact H. Qed.

Lemma wp_cases {A} (m : M A) Q s :
  (forall r s', m s = (r, s') -> Q r s') -> wp m Q s.
Proof. intros H. unfold wp. apply H. now destruct (m s). Qed.

Lemma wp_run {A} (m : M A) (Q : res A -> state -> Prop) s :
  wp m Q s -> Q (fst (m s)) (snd (m s)).
Proof. auto. Qed.

(** Use the equations among the hypotheses (attribute lookups, results of
    built-ins, outcomes of the oracle). *)
Ltac use_hyps :=
  match goal with
  | H : lookup_attr ?n ?d = _ |- context [lookup_attr ?n ?d] => rewrite H
  | H : truediv_float ?a ?b = _ |- context [truediv_float ?a ?b] => rewrite H
  end.

Ltac use_hyps_in E :=
  match goal with
  | H : lookup_attr ?n ?d = _ |- _ =>
      lazymatch type of E with
      | context [lookup_attr n d] => rewrite H in E
      end
  | H : truediv_float ?a ?b = _ |- _ =>
      lazymatch type of E with
      | context [truediv_float a b] => rewrite H in E
      end
  end.

(** One primitive step.  The fast path computes the step; the slow path
    splits on the oracle where the step calls out. *)
Ltac open_prim :=
  cbv delta [setattr getattr print_stderr extern construct new_ method
             qsettings_value saveGeometry str lift ret raise settings_scope].

Ltac open_prim_in E :=
  cbv delta [setattr getattr print_stderr extern construct new_ method
             qsettings_value saveGeometry str lift ret raise settings_scope]
    in E.

Ltac prim_step :=
  first
    [ eapply wp_exec;
      [ open_prim;
        repeat (progress cbn || rewrite Nat.eqb_refl || use_hyps); reflexivity
      | cbv beta iota ]
    | let r := fresh "r" in
      let s' := fresh "s'" in
      let E := fresh "E" in
      apply wp_cases; intros r s' E; open_prim_in E;
      repeat (progress cbn in E || rewrite Nat.eqb_refl in E || use_hyps_in E);
      repeat match type of E with
             | context [match ?f ?h ?c with _ => _ end] =>
                 lazymatch type of f with
                 | list event -> call -> option exn =>
                     let F := fresh "F" in destruct (f h c) eqn:F
                 end
             end;
      inversion E; subst r s'; clear E; cbv beta iota ].

Ltac wp_go :=
  lazymatch goal with
  | |- wp (bind _ _) _ _ => apply wp_bind; wp_go
  | |- wp (try_except _ _) _ _ => apply wp_try; wp_go
  | |- wp (call_ _ _ _) _ _ => unfold call_; wp_go
  | |- wp (invoke _ _ _) _ _ => unfold invoke; wp_go
  | |- wp (qsettings_setValue _ _ _) _ _ => unfold qsettings_setValue; wp_go
  | |- wp (restoreGeometry _) _ _ => unfold restoreGeometry; wp_go
  | |- wp (call_value (VFun fn_formatter) _) _ _ => cbn [call_value]; wp_go
  | |- wp sig_handler _ _ => unfold sig_handler; wp_go
  | |- wp (set_transmit_status_label _) _ _ =>
      unfold set_transmit_status_label; wp_go
  | |- wp (set_rf_freq _) _ _ => unfold set_rf_freq; wp_go
  | |- wp (set_rf_rate _) _ _ => unfold set_rf_rate; wp_go
  | |- wp init_icon _ _ => unfold init_icon; wp_go
  | |- wp init_geometry _ _ => unfold init_geometry; wp_go
  | |- wp init_window _ _ => unfold init_window; wp_go
  | |- wp init_flowgraph _ _ => unfold init_flowgraph; cbv zeta; wp_go
  | |- wp __init__ _ _ => unfold __init__; wp_go
  | |- wp pirate_radio _ _ => unfold pirate_radio; wp_go
  | |- wp (closeEvent _) _ _ => unfold closeEvent; wp_go
  | |- wp main _ _ => unfold main; wp_go
  | |- wp (if py_bool VNone then _ else _) _ _ => cbn [py_bool]; wp_go
  | |- wp (if _ then _ else _) _ _ => idtac
  | |- wp _ _ _ => prim_step; wp_go
  | |- match ?r with Ok _ => _ | Raise _ => _ end =>
      fail "the run is stuck on" r
  | |- _ => idtac
  end.

(** Start a run from a state taken apart into its fields. *)
Ltac start m Q :=
  unfold quiet, constructed, attr in * |-; cbn in * |-; subst;
  apply (wp_run m Q).

(** ** The log of a run *)

Lemma events_since_app s s' new :
  trace s' = (new ++ trace s)%list -> events_since s s' = new.
Proof.
  intros H. unfold events_since. rewrite H, length_app.
  replace (length new + length (trace s) - length (trace s))%nat
    with (length new) by lia.
  apply take_app_length.
Qed.

Lemma calls_since_app s s' new :
  trace s' = (new ++ trace s)%list -> calls_since s s' = calls_of new.
Proof. intros H. unfold calls_since. now rewrite (events_since_app _ _ new). Qed.

(** The events a run put on top of the log [base]. *)
Ltac prefix_of l base :=
  lazymatch l with
  | base => constr:(@nil event)
  | ?e :: ?l' => let p := prefix_of l' base in constr:(e :: p)
  end.

Ltac read_log :=
  repeat match goal with
    | |- context [calls_since (State _ ?t _ _ _ _ _ _) (State ?a ?l ?b ?c ?d ?e ?f ?g)] =>
        let p := prefix_of l t in
        rewrite (calls_since_app (State _ t _ _ _ _ _ _) (State a l b c d e f g) p)
          by reflexivity
    | |- context [events_since (State _ ?t _ _ _ _ _ _) (State ?a ?l ?b ?c ?d ?e ?f ?g)] =>
        let p := prefix_of l t in
        rewrite (events_since_app (State _ t _ _ _ _ _ _) (State a l b c d e f g) p)
          by reflexivity
    end.

(** C10. [set_quad_rate] and [set_audio_rate] bind the one attribute and do
    nothing else: no external call is made, so no block is reconfigured, and
    every other attribute, the persisted settings, the window and standard
    error are as before.  [set_rf_rate] also leaves every other attribute
    alone, and makes exactly one external call: [set_sample_rate(0, v)] on
    the SDR sink. *)
Theorem rate_setters_frame (s : state) (v : pyval) (sink : nat) :
  attr "soapy_hackrf_sink_0" s = Some (VObj sink) ->
  (set_quad_rate v s = (Ok tt, with_self (("quad_rate", v) :: self s) s)
   /\ calls_since s (snd (set_quad_rate v s)) = []
   /\ forall name, "quad_rate" <> name ->
        attr name (snd (set_quad_rate v s)) = attr name s)
  /\ (set_audio_rate v s = (Ok tt, with_self (("audio_rate", v) :: self s) s)
      /\ calls_since s (snd (set_audio_rate v s)) = []
      /\ forall name, "audio_rate" <> name ->
           attr name (snd (set_audio_rate v s)) = attr name s)
  /\ (calls_since s (snd (set_rf_rate v s))
      = [Call (VObj sink) "set_sample_rate" [VInt 0; v] []]
      /\ forall name, "rf_rate" <> name ->
           attr name (snd (set_rf_rate v s)) = attr name s).
Proof.
  intros Hsink. repeat split.
  - destruct s. apply (calls_since_app _ _ []). reflexivity.
  - intros name H. now apply (frames_setattr name "quad_rate" v).
  - destruct s. apply (calls_since_app _ _ []). reflexivity.
  - intros name H. now apply (frames_setattr name "audio_rate" v).
  - destruct s as [d t n st g err f o].
    start (set_rf_rate v)
      (fun (_ : res unit) s' =>
         calls_since (State d t n st g err f o) s'
         = [Call (VObj sink) "set_sample_rate" [VInt 0; v] []]).
    wp_go; read_log; reflexivity.
  - intros name H. now apply frames_set_rf_rate.
Qed.

(** C10 at a concrete instance: a sink bound, rate 1_000_000. *)
Lemma rate_setters_frame_witness :
  calls_since (with_self [("soapy_hackrf_sink_0", VObj 5)] sample_boot)
    (snd (set_rf_rate (VInt 1000000)
            (with_self [("soapy_hackrf_sink_0", VObj 5)] sample_boot)))
  = [Call (VObj 5) "set_sample_rate" [VInt 0; VInt 1000000] []].
Proof.
  apply (rate_setters_frame
           (with_self [("soapy_hackrf_sink_0", VObj 5)] sample_boot)
           (VInt 1000000) 5).
  reflexivity.
Defined.

(** ** What a computation leaves alone *)

Lemma same_refl p s : same p s s.
Proof. destruct p; cbn; auto. Qed.

Lemma same_trans p s1 s2 s3 : same p s1 s2 -> same p s2 s3 -> same p s1 s3.
Proof. destruct p; cbn; intuition congruence. Qed.

Lemma same_log p ev s : same p s (log ev s).
Proof. destruct p, s; cbn; auto. Qed.

Lemma same_alloc p s : same p s (alloc s).
Proof. destruct p, s; cbn; auto. Qed.

Lemma keeps_pure p {A} (m : M A) :
  (forall s, snd (m s) = s) -> keeps p m.
Proof. intros H s. rewrite H. apply same_refl. Qed.

Lemma keeps_ret p {A} (a : A) : keeps p (ret a).
Proof. now apply keeps_pure. Qed.

Lemma keeps_raise p {A} e : keeps p (@raise A e).
Proof. now apply keeps_pure. Qed.

Lemma keeps_lift p {A} (r : res A) : keeps p (lift r).
Proof. now apply keeps_pure. Qed.

Lemma keeps_str p v : keeps p (str v).
Proof. now apply keeps_pure. Qed.

Lemma keeps_getattr p n : keeps p (getattr n).
Proof.
  apply keeps_pure. intros s. unfold getattr.
  now destruct (lookup_attr n (self s)).
Qed.

Lemma keeps_setattr p n v : keeps p (setattr n v).
Proof. intros s. destruct p, s; cbn; auto. Qed.

Lemma keeps_print p l : p <> Stderr -> keeps p (print_stderr l).
Proof. intros H s. destruct p, s; cbn; auto. contradiction. Qed.

Lemma keeps_bind p {A B} (m : M A) (k : A -> M B) :
  keeps p m -> (forall a, keeps p (k a)) -> keeps p (bind m k).
Proof.
  intros Hm Hk s. unfold bind. specialize (Hm s).
  destruct (m s) as [[a|e] s1]; cbn in *; [|assumption].
  eapply same_trans; [exact Hm | apply Hk].
Qed.

Lemma keeps_try p body handler :
  keeps p body -> (forall e, keeps p (handler e)) ->
  keeps p (try_except body handler).
Proof.
  intros Hm Hk s. unfold try_except. specialize (Hm s).
  destruct (body s) as [[a|e] s1]; cbn in *; [assumption|].
  eapply same_trans; [exact Hm | apply Hk].
Qed.

Lemma keeps_extern p c result effect :
  (forall s, same p s (effect s)) -> keeps p (extern c result effect).
Proof.
  intros He s. unfold extern. destruct (faults s (trace s) c); cbn.
  - apply same_log.
  - eapply same_trans; [apply same_log | apply He].
Qed.

Lemma keeps_construct p c : keeps p (construct c).
Proof.
  intros s. unfold construct. destruct (faults s (trace s) c); cbn.
  - apply same_log.
  - eapply same_trans; [apply same_log | apply same_alloc].
Qed.

Lemma keeps_method p recv m a result effect :
  (forall s, same p s (effect s)) -> keeps p (method recv m a result effect).
Proof.
  intros He. unfold method. destruct (is_object recv).
  - now apply keeps_extern.
  - apply keeps_raise.
Qed.

Lemma keeps_new p f a kw : keeps p (new_ f a kw).
Proof. apply keeps_construct. Qed.

Lemma keeps_call p f a kw : keeps p (call_ f a kw).
Proof.
  apply keeps_bind; [apply keeps_extern, same_refl | intros; apply keeps_ret].
Qed.

Lemma keeps_invoke p recv m a : keeps p (invoke recv m a).
Proof.
  apply keeps_bind; [apply keeps_method, same_refl | intros; apply keeps_ret].
Qed.

Lemma keeps_value p recv key : keeps p (qsettings_value recv key).
Proof. apply keeps_method, same_refl. Qed.

Lemma keeps_setValue p recv key v :
  p <> Settings -> keeps p (qsettings_setValue recv key v).
Proof.
  intros H. apply keeps_bind; [|intros; apply keeps_ret].
  apply keeps_method. intros s.
  destruct (settings_scope recv s) as [[org app]|]; [|apply same_refl].
  destruct p, s; cbn; auto. contradiction.
Qed.

Lemma keeps_saveGeometry p : keeps p saveGeometry.
Proof. apply keeps_method, same_refl. Qed.

Lemma keeps_restoreGeometry p g : p <> Geometry -> keeps p (restoreGeometry g).
Proof.
  intros H. apply keeps_bind; [|intros; apply keeps_ret].
  apply keeps_method. intros s. destruct p, s; cbn; auto. contradiction.
Qed.

(** Decompose a script into its primitive steps; [keeps_known] grows with
    the lemmas about the script's own functions. *)
Ltac keeps_known := fail.

Ltac side := first [discriminate | assumption].

Ltac keeps_step :=
  lazymatch goal with
  | |- keeps _ (bind _ _) => apply keeps_bind; [|intros]
  | |- keeps _ (try_except _ _) => apply keeps_try; [|intros]
  | |- keeps _ (ret _) => apply keeps_ret
  | |- keeps _ (raise _) => apply keeps_raise
  | |- keeps _ (lift _) => apply keeps_lift
  | |- keeps _ (str _) => apply keeps_str
  | |- keeps _ (getattr _) => apply keeps_getattr
  | |- keeps _ (setattr _ _) => apply keeps_setattr
  | |- keeps _ (new_ _ _ _) => apply keeps_new
  | |- keeps _ (call_ _ _ _) => apply keeps_call
  | |- keeps _ (invoke _ _ _) => apply keeps_invoke
  | |- keeps _ (qsettings_value _ _) => apply keeps_value
  | |- keeps _ saveGeometry => apply keeps_saveGeometry
  | |- keeps _ (print_stderr _) => apply keeps_print; side
  | |- keeps _ (qsettings_setValue _ _ _) => apply keeps_setValue; side
  | |- keeps _ (restoreGeometry _) => apply keeps_restoreGeometry; side
  | |- keeps _ (if ?b then _ else _) => destruct b
  | |- keeps _ _ => keeps_known
  end.

Ltac keeps_go := repeat keeps_step.

Lemma keeps_sig_handler p : keeps p sig_handler.
Proof. unfold sig_handler. keeps_go. Qed.

Ltac keeps_known ::= apply keeps_sig_handler.

Lemma keeps_call_value p f x : keeps p (call_value f x).
Proof.
  destruct f as [| | | | | | | | | |c|]; cbn; try apply keeps_raise.
  destruct c; keeps_go.
Qed.

Ltac keeps_known ::=
  first [apply keeps_sig_handler | apply keeps_call_value].

Lemma keeps_set_transmit_status_label p v :
  keeps p (set_transmit_status_label v).
Proof.
  unfold set_transmit_status_label. keeps_go.
Qed.

Ltac keeps_known ::=
  first [ apply keeps_sig_handler | apply keeps_call_value
        | apply keeps_set_transmit_status_label ].

Lemma keeps_set_rf_freq p v : keeps p (set_rf_freq v).
Proof.
  unfold set_rf_freq. keeps_go.
Qed.

Lemma keeps_set_rf_rate p v : keeps p (set_rf_rate v).
Proof. unfold set_rf_rate. keeps_go. Qed.

Lemma keeps_init_window p : p <> Stderr -> p <> Geometry -> keeps p init_window.
Proof.
  intros H1 H2. unfold init_window, init_icon, init_geometry. keeps_go.
Qed.

Lemma keeps_init_flowgraph p : keeps p init_flowgraph.
Proof.
  unfold init_flowgraph. cbv zeta. keeps_go.
Qed.

Lemma keeps_pirate_radio p : p <> Stderr -> p <> Geometry -> keeps p pirate_radio.
Proof.
  intros H1 H2. unfold pirate_radio, __init__. keeps_go.
  - intros s. destruct p, s; cbn; auto.
  - now apply keeps_init_window.
  - apply keeps_init_flowgraph.
Qed.

Lemma keeps_main p : p <> Stderr -> p <> Geometry -> keeps p main.
Proof.
  intros H1 H2. unfold main. keeps_go. now apply keeps_pirate_radio.
Qed.

(** ** Which calls may raise *)

Lemma clean_nil P : clean P [].
Proof. intros c e []. Qed.

Lemma clean_app P l1 l2 : clean P l1 -> clean P l2 -> clean P (l1 ++ l2).
Proof.
  intros H1 H2 c e [H|H]%in_app_or; [now apply (H1 c e) | now apply (H2 c e)].
Qed.

Lemma clean_cons_quiet P c o l :
  (forall e, o <> Raised e) -> clean P l -> clean P ((c, o) :: l).
Proof.
  intros Ho Hl c' e [H|H]; [|now apply (Hl c' e)].
  injection H as _ H. now destruct (Ho e).
Qed.

Lemma clean_cons_raised P c e l : P c -> clean P l -> clean P ((c, Raised e) :: l).
Proof.
  intros Hc Hl c' e' [H|H]; [|now apply (Hl c' e')].
  injection H as <- _. exact Hc.
Qed.

Lemma raises_only_tolerates P {A} (m : M A) : raises_only P m -> tolerates P m.
Proof. intros H s. destruct (H s) as (new & E & C). exists new. auto. Qed.

Lemma ro_pure P {A} (m : M A) : (forall s, snd (m s) = s) -> raises_only P m.
Proof. intros H s. exists []. rewrite H. split; [reflexivity | apply clean_nil]. Qed.

Lemma ro_getattr P n : raises_only P (getattr n).
Proof.
  apply ro_pure. intros s. unfold getattr. now destruct (lookup_attr n (self s)).
Qed.

Lemma ro_setattr P n v : raises_only P (setattr n v).
Proof.
  intros s. exists []. split; [now destruct s | apply clean_nil].
Qed.

Lemma ro_print P l : raises_only P (print_stderr l).
Proof.
  intros s. exists []. split; [now destruct s | apply clean_nil].
Qed.

Lemma ro_bind P {A B} (m : M A) (k : A -> M B) :
  raises_only P m -> (forall a, raises_only P (k a)) -> raises_only P (bind m k).
Proof.
  intros Hm Hk s. unfold bind. destruct (Hm s) as (n1 & E1 & C1).
  destruct (m s) as [[a|e] s1]; cbn in *.
  - destruct (Hk a s1) as (n2 & E2 & C2). exists (n2 ++ n1)%list.
    split; [now rewrite E2, E1, app_assoc | now apply clean_app].
  - exists n1. auto.
Qed.

Lemma ro_extern P c result effect :
  P c -> (forall s, trace (effect s) = trace s) ->
  raises_only P (extern c result effect).
Proof.
  intros Hc He s. unfold extern. destruct (faults s (trace s) c) as [e|]; cbn.
  - exists [(c, Raised e)]. split; [now destruct s|].
    now apply clean_cons_raised; [|apply clean_nil].
  - exists [(c, Returned (result s))]. rewrite He. split; [now destruct s|].
    apply clean_cons_quiet; [discriminate | apply clean_nil].
Qed.

Lemma ro_construct P c : P c -> raises_only P (construct c).
Proof.
  intros Hc s. unfold construct. destruct (faults s (trace s) c) as [e|]; cbn.
  - exists [(c, Raised e)]. split; [now destruct s|].
    now apply clean_cons_raised; [|apply clean_nil].
  - exists [(c, Created (next_obj s))]. split; [now destruct s|].
    apply clean_cons_quiet; [discriminate | apply clean_nil].
Qed.

Lemma ro_method P recv m a result effect :
  P (Call recv m a []) -> (forall s, trace (effect s) = trace s) ->
  raises_only P (method recv m a result effect).
Proof.
  intros Hc He. unfold method. destruct (is_object recv).
  - now apply ro_extern.
  - now apply ro_pure.
Qed.

Lemma tol_bind P {A B} (m : M A) (k : A -> M B) :
  tolerates P m -> (forall a, tolerates P (k a)) -> tolerates P (bind m k).
Proof.
  intros Hm Hk s. unfold bind. destruct (Hm s) as (n1 & E1 & C1).
  destruct (m s) as [[a|e] s1]; cbn in *.
  - assert (clean P n1) as C1'.
    { destruct C1 as [C1|(c & e & rest & _ & _ & H)]; [exact C1 | discriminate]. }
    destruct (Hk a s1) as (n2 & E2 & C2). exists (n2 ++ n1)%list.
    split; [now rewrite E2, E1, app_assoc|].
    destruct C2 as [C2|(c & e & rest & -> & C2 & H)].
    + left. now apply clean_app.
    + right. exists c, e, (rest ++ n1)%list.
      split; [reflexivity|]. split; [now apply clean_app | exact H].
  - exists n1. split; [exact E1|].
    destruct C1 as [C1|(c & e' & rest & H1 & H2 & H3)]; [now left|].
    right. exists c, e', rest. injection H3 as ->. auto.
Qed.

Lemma tol_try P body handler :
  raises_only P body -> (forall e, tolerates P (handler e)) ->
  tolerates P (try_except body handler).
Proof.
  intros Hm Hk s. unfold try_except. destruct (Hm s) as (n1 & E1 & C1).
  destruct (body s) as [[a|e] s1]; cbn in *.
  - exists n1. auto.
  - destruct (Hk e s1) as (n2 & E2 & C2). exists (n2 ++ n1)%list.
    split; [now rewrite E2, E1, app_assoc|].
    destruct C2 as [C2|(c & e' & rest & -> & C2 & H)].
    + left. now apply clean_app.
    + right. exists c, e', (rest ++ n1)%list.
      split; [reflexivity|]. split; [now apply clean_app | exact H].
Qed.

Lemma tol_extern P c result effect :
  (forall s, trace (effect s) = trace s) -> tolerates P (extern c result effect).
Proof.
  intros He s. unfold extern. destruct (faults s (trace s) c) as [e|]; cbn.
  - exists [(c, Raised e)]. split; [now destruct s|].
    right. exists c, e, []. auto using clean_nil.
  - exists [(c, Returned (result s))]. rewrite He. split; [now destruct s|].
    left. apply clean_cons_quiet; [discriminate | apply clean_nil].
Qed.

Lemma tol_construct P c : tolerates P (construct c).
Proof.
  intros s. unfold construct. destruct (faults s (trace s) c) as [e|]; cbn.
  - exists [(c, Raised e)]. split; [now destruct s|].
    right. exists c, e, []. auto using clean_nil.
  - exists [(c, Created (next_obj s))]. split; [now destruct s|].
    left. apply clean_cons_quiet; [discriminate | apply clean_nil].
Qed.

Lemma tol_method P recv m a result effect :
  (forall s, trace (effect s) = trace s) ->
  tolerates P (method recv m a result effect).
Proof.
  intros He. unfold method. destruct (is_object recv).
  - now apply tol_extern.
  - now apply raises_only_tolerates, ro_pure.
Qed.

Lemma trace_with_qstore m s : trace (with_qstore m s) = trace s.
Proof. now destruct s. Qed.

Lemma trace_with_geometry g s : trace (with_geometry g s) = trace s.
Proof. now destruct s. Qed.

Lemma ro_ret P {A} (a : A) : raises_only P (ret a).
Proof. now apply ro_pure. Qed.

Lemma ro_invoke P recv m a :
  P (Call recv m a []) -> raises_only P (invoke recv m a).
Proof.
  intros H. apply ro_bind; [now apply ro_method | intros; apply ro_ret].
Qed.

Lemma ro_new P f a kw : P (Call VNone f a kw) -> raises_only P (new_ f a kw).
Proof. apply ro_construct. Qed.

Lemma ro_value P recv key :
  P (Call recv "value" [VStr key] []) -> raises_only P (qsettings_value recv key).
Proof. intros H. now apply ro_method. Qed.

Lemma ro_restoreGeometry P g :
  P (Call VSelf "restoreGeometry" [g] []) -> raises_only P (restoreGeometry g).
Proof.
  intros H. apply ro_bind; [|intros; apply ro_ret].
  apply ro_method; [exact H | apply trace_with_geometry].
Qed.

Lemma tol_pure P {A} (m : M A) : (forall s, snd (m s) = s) -> tolerates P m.
Proof. intros H. now apply raises_only_tolerates, ro_pure. Qed.

Lemma tol_getattr P n : tolerates P (getattr n).
Proof. apply raises_only_tolerates, ro_getattr. Qed.

Lemma tol_setattr P n v : tolerates P (setattr n v).
Proof. apply raises_only_tolerates, ro_setattr. Qed.

Lemma tol_print P l : tolerates P (print_stderr l).
Proof. apply raises_only_tolerates, ro_print. Qed.

Lemma tol_new P f a kw : tolerates P (new_ f a kw).
Proof. apply tol_construct. Qed.

Lemma tol_call P f a kw : tolerates P (call_ f a kw).
Proof.
  apply tol_bind; [now apply tol_extern | intros; now apply tol_pure].
Qed.

Lemma tol_invoke P recv m a : tolerates P (invoke recv m a).
Proof.
  apply tol_bind; [now apply tol_method | intros; now apply tol_pure].
Qed.

Lemma tol_value P recv key : tolerates P (qsettings_value recv key).
Proof. now apply tol_method. Qed.

Lemma tol_setValue P recv key v : tolerates P (qsettings_setValue recv key v).
Proof.
  apply tol_bind; [|intros; now apply tol_pure].
  apply tol_method. intros s.
  destruct (settings_scope recv s) as [[org app]|]; [|reflexivity].
  apply trace_with_qstore.
Qed.

Lemma tol_saveGeometry P : tolerates P saveGeometry.
Proof. now apply tol_method. Qed.

Lemma tol_restoreGeometry P g : tolerates P (restoreGeometry g).
Proof.
  apply tol_bind; [|intros; now apply tol_pure].
  apply tol_method, trace_with_geometry.
Qed.

Ltac tol_known := fail.

Ltac tol_step :=
  lazymatch goal with
  | |- tolerates _ (bind _ _) => apply tol_bind; [|intros]
  | |- tolerates _ (ret _) => now apply tol_pure
  | |- tolerates _ (raise _) => now apply tol_pure
  | |- tolerates _ (lift _) => now apply tol_pure
  | |- tolerates _ (str _) => now apply tol_pure
  | |- tolerates _ (getattr _) => apply tol_getattr
  | |- tolerates _ (setattr _ _) => apply tol_setattr
  | |- tolerates _ (print_stderr _) => apply tol_print
  | |- tolerates _ (new_ _ _ _) => apply tol_new
  | |- tolerates _ (call_ _ _ _) => apply tol_call
  | |- tolerates _ (invoke _ _ _) => apply tol_invoke
  | |- tolerates _ (qsettings_value _ _) => apply tol_value
  | |- tolerates _ (qsettings_setValue _ _ _) => apply tol_setValue
  | |- tolerates _ saveGeometry => apply tol_saveGeometry
  | |- tolerates _ (restoreGeometry _) => apply tol_restoreGeometry
  | |- tolerates _ (if ?b then _ else _) => destruct b
  | |- tolerates _ _ => tol_known
  end.

Ltac tol_go := repeat tol_step.

Ltac ro_step :=
  lazymatch goal with
  | |- raises_only _ (bind _ _) => apply ro_bind; [|intros]
  | |- raises_only _ (ret _) => apply ro_ret
  | |- raises_only _ (getattr _) => apply ro_getattr
  | |- raises_only _ (new_ _ _ _) => apply ro_new; reflexivity
  | |- raises_only _ (invoke _ _ _) => apply ro_invoke; reflexivity
  | |- raises_only _ (qsettings_value _ _) => apply ro_value; reflexivity
  | |- raises_only _ (restoreGeometry _) =>
      apply ro_restoreGeometry; reflexivity
  | |- raises_only _ (if ?b then _ else _) => destruct b
  end.

Lemma tol_sig_handler P : tolerates P sig_handler.
Proof. unfold sig_handler. tol_go. Qed.

Ltac tol_known ::= apply tol_sig_handler.

Lemma tol_call_value P f x : tolerates P (call_value f x).
Proof.
  destruct f as [| | | | | | | | | |c|]; cbn; try now apply tol_pure.
  destruct c; tol_go.
Qed.

Ltac tol_known ::= first [apply tol_sig_handler | apply tol_call_value].

Lemma tol_set_transmit_status_label P v :
  tolerates P (set_transmit_status_label v).
Proof. unfold set_transmit_status_label. tol_go. Qed.

Ltac tol_known ::=
  first [ apply tol_sig_handler | apply tol_call_value
        | apply tol_set_transmit_status_label ].

Lemma tol_set_rf_freq P v : tolerates P (set_rf_freq v).
Proof. unfold set_rf_freq. tol_go. Qed.

Lemma tol_set_rf_rate P v : tolerates P (set_rf_rate v).
Proof. unfold set_rf_rate. tol_go. Qed.

Lemma tol_closeEvent P event : tolerates P (closeEvent event).
Proof. unfold closeEvent. tol_go. Qed.

Lemma tol_init_icon : tolerates (fun c => guarded c = true) init_icon.
Proof.
  unfold init_icon. apply tol_try; [repeat ro_step | intros; tol_go].
Qed.

Lemma tol_init_geometry : tolerates (fun c => guarded c = true) init_geometry.
Proof.
  unfold init_geometry. apply tol_try; [repeat ro_step | intros; tol_go].
Qed.

Ltac tol_known ::=
  first [ apply tol_sig_handler | apply tol_call_value
        | apply tol_set_transmit_status_label
        | apply tol_init_icon | apply tol_init_geometry ].

Lemma tol_init_window : tolerates (fun c => guarded c = true) init_window.
Proof. unfold init_window. tol_go. Qed.

Lemma tol_init_flowgraph P : tolerates P init_flowgraph.
Proof. unfold init_flowgraph. cbv zeta. tol_go. Qed.

Lemma tol_pirate_radio : tolerates (fun c => guarded c = true) pirate_radio.
Proof.
  unfold pirate_radio, __init__.
  apply tol_bind; [|intros; apply tol_bind; intros].
  - intros s. exists []. split; [now destruct s | left; apply clean_nil].
  - apply tol_init_window.
  - apply tol_init_flowgraph.
Qed.

Ltac tol_known ::=
  first [ apply tol_sig_handler | apply tol_call_value
        | apply tol_set_transmit_status_label
        | apply tol_init_icon | apply tol_init_geometry
        | apply tol_pirate_radio ].

Lemma tol_main : tolerates (fun c => guarded c = true) main.
Proof. unfold main. tol_go. Qed.

(** ** The constructor *)


Ltac read_appended :=
  lazymatch goal with
  | |- exists new,
        appends (State _ ?t _ _ _ _ _ _) (State _ ?l _ _ _ _ _ _) new /\ _ =>
      let p := prefix_of l t in
      exists p; split; [reflexivity|]
  end.

Lemma filter_narrow {A} (p q : A -> bool) (l : list A) :
  (forall x, p x = true -> q x = true) ->
  List.filter p (List.filter q l) = List.filter p l.
Proof.
  intros H. induction l as [|x l IH]; [reflexivity|]. cbn.
  destruct (q x) eqn:Hq, (p x) eqn:Hp; cbn; rewrite ?Hp, ?IH; try reflexivity.
  apply H in Hp. congruence.
Qed.

(** What a quiet run of the constructor does, read off one symbolic run:
    the blocks it makes, how it configures and connects them, the attributes
    it binds, and its dealings with the persisted geometry. *)
Lemma construction_summary (s : state) :
  quiet s ->
  exists new,
    appends s (snd (pirate_radio s)) new
    /\ fst (pirate_radio s) = Ok tt
    /\ List.filter (fun p : call * nat => is_block (fst p)) (created new)
       = [(Call VNone "soapy.sink"
             [VStr "driver=hackrf"; VStr "fc32"; VInt 1; VStr ""; VStr "";
              VList [VStr ""]; VList [VStr ""]] [], (11 + next_obj s)%nat);
          (Call VNone "filter.rational_resampler_ccc" []
             [("interpolation", VInt 2000000); ("decimation", VInt 480000);
              ("taps", VList []); ("fractional_bw", VInt 0)],
           (12 + next_obj s)%nat);
          (Call VNone "filter.rational_resampler_fff" []
             [("interpolation", VInt 480000); ("decimation", VInt 48000);
              ("taps", VList []); ("fractional_bw", VInt 0)],
           (13 + next_obj s)%nat);
          (Call VNone "blocks.wavfile_source"
             [VStr "audio/example_1mb.wav"; VBool true] [],
           (14 + next_obj s)%nat);
          (Call VNone "analog.nbfm_tx" []
             [("audio_rate", VInt 480000); ("quad_rate", VInt 480000);
              ("tau", VFloat 75e-6); ("max_dev", VInt 75000);
              ("fh", VFloat (-1.0))],
           (15 + next_obj s)%nat)]
    /\ List.filter is_sink_setter (calls_of new)
       = [Call (VObj (11 + next_obj s)) "set_sample_rate"
            [VInt 0; VInt 2000000] [];
          Call (VObj (11 + next_obj s)) "set_bandwidth" [VInt 0; VInt 0] [];
          Call (VObj (11 + next_obj s)) "set_frequency"
            [VInt 0; VFloat 102.2e6] [];
          Call (VObj (11 + next_obj s)) "set_gain"
            [VInt 0; VStr "AMP"; VBool false] [];
          Call (VObj (11 + next_obj s)) "set_gain"
            [VInt 0; VStr "VGA"; VInt 16] []]
    /\ List.filter (named "connect") (calls_of new)
       = [connect (15 + next_obj s) (12 + next_obj s);
          connect (14 + next_obj s) (13 + next_obj s);
          connect (13 + next_obj s) (15 + next_obj s);
          connect (12 + next_obj s) (11 + next_obj s)]
    /\ map (fun name => attr name (snd (pirate_radio s)))
         ["blocks_wavfile_source_0"; "rational_resampler_xxx_0";
          "analog_nbfm_tx_0"; "rational_resampler_xxx_1";
          "soapy_hackrf_sink_0"; "_transmit_status_label_label";
          "_transmit_status_label_formatter"]
       = [Some (VObj (14 + next_obj s)); Some (VObj (13 + next_obj s));
          Some (VObj (15 + next_obj s)); Some (VObj (12 + next_obj s));
          Some (VObj (11 + next_obj s)); Some (VObj (10 + next_obj s));
          Some (VFun fn_formatter)]
    /\ map (fun name => attr name (snd (pirate_radio s)))
         ["rf_freq"; "transmit_status_label"; "rf_rate"; "quad_rate";
          "audio_rate"]
       = [Some (VFloat 102.2e6);
          Some (VStr (py_str (opaque s) (VFloat (102.2e6 / 1e6)) ++ " MHz"));
          Some (VInt 2000000); Some (VInt 480000); Some (VInt 48000)]
    /\ List.filter (fun c => named "Qt.QSettings" c || named "value" c
                        || named "restoreGeometry" c) (calls_of new)
       = (Call VNone "Qt.QSettings"
            [VStr "gnuradio/flowgraphs"; VStr "pirate_radio"] []
          :: Call (VObj (6 + next_obj s)) "value" [VStr "geometry"] []
          :: (if py_bool (stored_geometry s)
              then [Call VSelf "restoreGeometry" [stored_geometry s] []]
              else []))%list
    /\ geometry (snd (pirate_radio s))
       = (if py_bool (stored_geometry s) then stored_geometry s
          else geometry s)
    /\ qstore (snd (pirate_radio s)) = qstore s
    /\ stderr (snd (pirate_radio s)) = stderr s
    /\ quiet (snd (pirate_radio s))
    /\ last_call "set_frequency" new
       = Some (Call (VObj (11 + next_obj s)) "set_frequency"
                 [VInt 0; VFloat 102.2e6] [])
    /\ last_call "set_sample_rate" new
       = Some (Call (VObj (11 + next_obj s)) "set_sample_rate"
                 [VInt 0; VInt 2000000] [])
    /\ placements new
       = [(VSelf, VObj (1 + next_obj s));
          (VObj (1 + next_obj s), VObj (2 + next_obj s));
          (VObj (2 + next_obj s), VObj (3 + next_obj s));
          (VObj (3 + next_obj s), VObj (4 + next_obj s));
          (VObj (4 + next_obj s), VObj (5 + next_obj s));
          (VObj (8 + next_obj s), VObj (9 + next_obj s));
          (VObj (8 + next_obj s), VObj (10 + next_obj s));
          (VObj (4 + next_obj s), VObj (8 + next_obj s))].
Proof.
  destruct s as [d t n st g err f o]. intros Hq.
  unfold quiet in Hq; cbn in Hq; subst f.
  unfold stored_geometry, geometry_key. cbn [qstore next_obj opaque geometry stderr].
  match goal with |- context [py_bool ?x] => set (truthy := py_bool x) end.
  match goal with
  | |- exists new, appends ?s0 (snd (?m ?s0)) new /\ _ =>
      pattern (fst (m s0)), (snd (m s0));
      match goal with
      | |- ?Q _ _ => set (P := Q); change (wp m P s0)
      end
  end.
  wp_go.
  match goal with
  | |- wp (if ?b then _ else _) _ _ =>
      change b with truthy; clearbody truthy; destruct truthy
  end.
  all: wp_go.
  all: subst P; cbv beta.
  all: read_appended.
  all: repeat match goal with
         | |- context [store_get ?k ?m] => generalize (store_get k m); intro
         end.
  all: vm_compute.
  all: repeat split.
Qed.

(** ** The frequency setter and the label *)

Lemma truediv_float_of_float (f d : float) :
  PrimFloat.eqb d 0 = false ->
  truediv_float (VFloat f) d = Ok (VFloat (f / d)).
Proof. intros H. unfold truediv_float. now rewrite H. Qed.

Lemma initial_label_text (o : pyval -> string) :
  py_str o (VFloat (102.2e6 / 1e6)) ++ " MHz" = "102.2 MHz".
Proof. vm_compute. reflexivity. Qed.

(** C1. In a constructed instance whose external calls succeed, for every
    frequency [F] for which [F/1e6] is defined (every float, every int in
    the float range), [set_rf_freq(F)] stores the label [str(F/1e6) + " MHz"]
    and calls [set_frequency(0, F)] on the sink, and nothing else of that
    name.  The constructor stores [rf_freq = 102.2e6] and the label
    [str(102.2e6/1e6) + " MHz"], which reads "102.2 MHz". *)
Theorem rf_freq_label_and_sink :
  (forall s F q label sink,
      quiet s -> constructed label sink s -> truediv_float F 1e6 = Ok q ->
      fst (set_rf_freq F s) = Ok tt
      /\ attr "transmit_status_label" (snd (set_rf_freq F s))
         = Some (VStr (py_str (opaque s) q ++ " MHz"))
      /\ filter (named "set_frequency") (calls_since s (snd (set_rf_freq F s)))
         = [Call (VObj sink) "set_frequency" [VInt 0; F] []])
  /\ (forall f, truediv_float (VFloat f) 1e6 = Ok (VFloat (f / 1e6)))
  /\ (forall s,
        quiet s ->
        attr "rf_freq" (snd (pirate_radio s)) = Some (VFloat 102.2e6)
        /\ attr "transmit_status_label" (snd (pirate_radio s))
           = Some (VStr (py_str (opaque s) (VFloat (102.2e6 / 1e6)) ++ " MHz"))
        /\ py_str (opaque s) (VFloat (102.2e6 / 1e6)) ++ " MHz" = "102.2 MHz").
Proof.
  split; [|split].
  - intros [d t n st g err f o] F q label sink Hq [Hl [Hf Hs]] Hdiv.
    start (set_rf_freq F)
      (fun r s' =>
         r = Ok tt
         /\ attr "transmit_status_label" s'
            = Some (VStr (py_str o q ++ " MHz"))
         /\ filter (named "set_frequency")
              (calls_since (State d t n st g err no_faults o) s')
            = [Call (VObj sink) "set_frequency" [VInt 0; F] []]).
    wp_go. read_log. generalize (py_str o q); intros text.
    lazy. repeat split.
  - intros f. now apply truediv_float_of_float.
  - intros s Hq.
    destruct (construction_summary s Hq)
      as (new & _ & _ & _ & _ & _ & _ & Hvars & _).
    injection Hvars as Hfreq Hlabel _.
    split; [exact Hfreq | split; [exact Hlabel | apply initial_label_text]].
Qed.

(** C1 on a concrete run: the instance [main] builds, retuned to 90.1 MHz. *)
Lemma rf_freq_label_and_sink_witness :
  attr "transmit_status_label"
    (snd (set_rf_freq (VFloat 90.1e6) (snd (pirate_radio sample_boot))))
  = Some (VStr "90.1 MHz").
Proof.
  refine (eq_trans
            (proj1 (proj2 (proj1 rf_freq_label_and_sink
               (snd (pirate_radio sample_boot)) (VFloat 90.1e6)
               (VFloat (90.1e6 / 1e6)) 10%nat 11%nat _ _ _))) _);
    vm_compute; repeat split.
Defined.

(** ** What the constructor builds *)

Lemma since_of_appends s s' new :
  appends s s' new ->
  events_since s s' = new /\ calls_since s s' = calls_of new.
Proof.
  intros H. split; [now apply events_since_app | now apply calls_since_app].
Qed.

Lemma named_is_block (f : string) :
  is_block (Call VNone f [] []) = true ->
  forall p : call * nat, named f (fst p) = true -> is_block (fst p) = true.
Proof.
  intros Hf [c o]. unfold named, is_block in *. cbn [fst fname] in *.
  intros H%String.eqb_eq. now rewrite H.
Qed.

(** C7. In a run of the constructor whose external calls succeed, exactly
    one WAV-file source is made, by
    [blocks.wavfile_source('audio/example_1mb.wav', True)] -- the fixed path,
    with the repeat flag set -- and it is what [blocks_wavfile_source_0]
    holds. *)
Theorem wav_source (s : state) :
  quiet s ->
  exists wav,
    attr "blocks_wavfile_source_0" (snd (pirate_radio s)) = Some (VObj wav)
    /\ List.filter (fun p : call * nat => named "blocks.wavfile_source" (fst p))
         (created (events_since s (snd (pirate_radio s))))
       = [(Call VNone "blocks.wavfile_source"
             [VStr "audio/example_1mb.wav"; VBool true] [], wav)].
Proof.
  intros Hq.
  destruct (construction_summary s Hq)
    as (new & Happ & _ & Hblocks & _ & _ & Hattrs & _).
  destruct (since_of_appends _ _ _ Happ) as [-> _].
  exists (14 + next_obj s)%nat. split.
  - now injection Hattrs.
  - rewrite <- (filter_narrow _ (fun p : call * nat => is_block (fst p)))
      by now apply named_is_block.
    rewrite Hblocks. reflexivity.
Qed.

(** C7 on the run from process start. *)
Lemma wav_source_witness :
  exists wav,
    attr "blocks_wavfile_source_0" (snd (pirate_radio sample_boot))
    = Some (VObj wav)
    /\ List.filter (fun p : call * nat => named "blocks.wavfile_source" (fst p))
         (created (events_since sample_boot (snd (pirate_radio sample_boot))))
       = [(Call VNone "blocks.wavfile_source"
             [VStr "audio/example_1mb.wav"; VBool true] [], wav)].
Proof. apply (wav_source sample_boot). reflexivity. Defined.

(** C2. In a run of the constructor whose external calls succeed, the five
    block attributes hold five distinct objects, made in this order by
    [soapy.sink], [rational_resampler_ccc], [rational_resampler_fff],
    [wavfile_source] and [nbfm_tx]; exactly four [connect] calls are made,
    each from an output port 0 to an input port 0; and their edges are those
    of the pipeline WAV source -> audio resampler -> FM modulator -> RF
    resampler -> SDR sink. *)
Theorem flowgraph_wiring (s : state) :
  quiet s ->
  exists wav rr0 nbfm rr1 sink : nat,
    attr "blocks_wavfile_source_0" (snd (pirate_radio s)) = Some (VObj wav)
    /\ attr "rational_resampler_xxx_0" (snd (pirate_radio s)) = Some (VObj rr0)
    /\ attr "analog_nbfm_tx_0" (snd (pirate_radio s)) = Some (VObj nbfm)
    /\ attr "rational_resampler_xxx_1" (snd (pirate_radio s)) = Some (VObj rr1)
    /\ attr "soapy_hackrf_sink_0" (snd (pirate_radio s)) = Some (VObj sink)
    /\ map (fun p : call * nat => (fname (fst p), snd p))
         (List.filter (fun p : call * nat => is_block (fst p))
            (created (events_since s (snd (pirate_radio s)))))
       = [("soapy.sink", sink); ("filter.rational_resampler_ccc", rr1);
          ("filter.rational_resampler_fff", rr0);
          ("blocks.wavfile_source", wav); ("analog.nbfm_tx", nbfm)]
    /\ NoDup [wav; rr0; nbfm; rr1; sink]
    /\ List.filter (named "connect") (calls_since s (snd (pirate_radio s)))
       = [connect nbfm rr1; connect wav rr0; connect rr0 nbfm;
          connect rr1 sink]
    /\ Permutation
         (omap edge_of
            (List.filter (named "connect")
               (calls_since s (snd (pirate_radio s)))))
         (pipeline [wav; rr0; nbfm; rr1; sink]).
Proof.
  intros Hq.
  destruct (construction_summary s Hq)
    as (new & Happ & _ & Hblocks & _ & Hconn & Hattrs & _).
  destruct (since_of_appends _ _ _ Happ) as [-> ->].
  rewrite Hblocks, Hconn.
  injection Hattrs as Hwav Hrr0 Hnbfm Hrr1 Hsink _.
  exists (14 + next_obj s)%nat, (13 + next_obj s)%nat, (15 + next_obj s)%nat,
    (12 + next_obj s)%nat, (11 + next_obj s)%nat.
  repeat (split; [assumption || reflexivity|]). split.
  - repeat (constructor; [rewrite ?elem_of_cons, elem_of_nil; lia|]).
    constructor.
  - split; [reflexivity|]. cbn.
    eapply perm_trans; [apply perm_swap|]. apply perm_skip.
    eapply perm_trans; [apply perm_swap|]. reflexivity.
Qed.

(** C2 on the run from process start. *)
Lemma flowgraph_wiring_witness :
  List.filter (named "connect")
    (calls_since sample_boot (snd (pirate_radio sample_boot)))
  = [connect 15 12; connect 14 13; connect 13 15; connect 12 11].
Proof.
  destruct (flowgraph_wiring sample_boot eq_refl)
    as (wav & rr0 & nbfm & rr1 & sink & Hwav & Hrr0 & Hnbfm & Hrr1 & Hsink
        & _ & _ & Hconn & _).
  vm_compute in Hwav, Hrr0, Hnbfm, Hrr1, Hsink.
  injection Hwav as <-. injection Hrr0 as <-. injection Hnbfm as <-.
  injection Hrr1 as <-. injection Hsink as <-.
  exact Hconn.
Defined.

(** C4. In a run of the constructor whose external calls succeed, the one
    SDR sink is opened by [soapy.sink] with the device string
    ["driver=hackrf"], and the configuration calls made on it are, in order
    and all on channel 0: [set_sample_rate(0, 2000000)],
    [set_bandwidth(0, 0)], [set_frequency(0, 102.2e6)] and one [set_gain]
    for each of the two gain stages ["AMP"] and ["VGA"]. *)
Theorem sink_configuration (s : state) :
  quiet s ->
  exists sink : nat,
    attr "soapy_hackrf_sink_0" (snd (pirate_radio s)) = Some (VObj sink)
    /\ List.filter (fun p : call * nat => named "soapy.sink" (fst p))
         (created (events_since s (snd (pirate_radio s))))
       = [(Call VNone "soapy.sink"
             [VStr "driver=hackrf"; VStr "fc32"; VInt 1; VStr ""; VStr "";
              VList [VStr ""]; VList [VStr ""]] [], sink)]
    /\ List.filter is_sink_setter (calls_since s (snd (pirate_radio s)))
       = [Call (VObj sink) "set_sample_rate" [VInt 0; VInt 2000000] [];
          Call (VObj sink) "set_bandwidth" [VInt 0; VInt 0] [];
          Call (VObj sink) "set_frequency" [VInt 0; VFloat 102.2e6] [];
          Call (VObj sink) "set_gain" [VInt 0; VStr "AMP"; VBool false] [];
          Call (VObj sink) "set_gain" [VInt 0; VStr "VGA"; VInt 16] []]
    /\ map (fun c => nth_error (args c) 1)
         (List.filter (named "set_gain") (calls_since s (snd (pirate_radio s))))
       = [Some (VStr "AMP"); Some (VStr "VGA")].
Proof.
  intros Hq.
  destruct (construction_summary s Hq)
    as (new & Happ & _ & Hblocks & Hset & _ & Hattrs & _).
  destruct (since_of_appends _ _ _ Happ) as [-> ->].
  exists (11 + next_obj s)%nat. split; [now injection Hattrs|]. split.
  - rewrite <- (filter_narrow _ (fun p : call * nat => is_block (fst p)))
      by now apply named_is_block.
    rewrite Hblocks. reflexivity.
  - split; [exact Hset|].
    rewrite <- (filter_narrow _ is_sink_setter).
    + rewrite Hset. reflexivity.
    + intros c. unfold named, is_sink_setter.
      intros H%String.eqb_eq. now rewrite H.
Qed.

(** C4 on the run from process start. *)
Lemma sink_configuration_witness :
  map (fun c => nth_error (args c) 1)
    (List.filter (named "set_gain")
       (calls_since sample_boot (snd (pirate_radio sample_boot))))
  = [Some (VStr "AMP"); Some (VStr "VGA")].
Proof.
  destruct (sink_configuration sample_boot eq_refl) as (sink & _ & _ & _ & H).
  exact H.
Defined.

(** C8. In a run of the constructor whose external calls succeed, exactly
    two resamplers are made.  The RF resampler ([rational_resampler_ccc])
    gets interpolation [rf_rate = 2000000] and decimation
    [quad_rate = 480000], which in lowest terms is 25/6; the audio resampler
    ([rational_resampler_fff]) gets interpolation [quad_rate = 480000] and
    decimation [audio_rate = 48000], which in lowest terms is 10/1.  The
    reduced pairs are the same ratios: [2000000 * 6 = 480000 * 25] and
    [480000 * 1 = 48000 * 10]. *)
Theorem resampler_ratios (s : state) :
  quiet s ->
  map (fun p : call * nat =>
         (fname (fst p), kwarg "interpolation" (fst p),
          kwarg "decimation" (fst p), ratio (fst p)))
    (List.filter (fun p : call * nat => is_resampler (fst p))
       (created (events_since s (snd (pirate_radio s)))))
  = [("filter.rational_resampler_ccc", Some (VInt 2000000),
      Some (VInt 480000), Some (25, 6));
     ("filter.rational_resampler_fff", Some (VInt 480000),
      Some (VInt 48000), Some (10, 1))]
  /\ map (fun name => attr name (snd (pirate_radio s)))
       ["rf_rate"; "quad_rate"; "audio_rate"]
     = [Some (VInt 2000000); Some (VInt 480000); Some (VInt 48000)]
  /\ Z.gcd 25 6 = 1 /\ Z.gcd 10 1 = 1
  /\ 2000000 * 6 = 480000 * 25 /\ 480000 * 1 = 48000 * 10.
Proof.
  intros Hq.
  destruct (construction_summary s Hq)
    as (new & Happ & _ & Hblocks & _ & _ & _ & Hvars & _).
  destruct (since_of_appends _ _ _ Happ) as [-> _]. split.
  - rewrite <- (filter_narrow _ (fun p : call * nat => is_block (fst p))).
    + rewrite Hblocks. reflexivity.
    + intros [c o]. unfold is_resampler. cbn [fst].
      now intros [H _]%andb_prop.
  - split; [|repeat split].
    injection Hvars as _ _ Hrf Hquad Haudio.
    cbn [map]. now rewrite Hrf, Hquad, Haudio.
Qed.

(** C8 on the run from process start. *)
Lemma resampler_ratios_witness :
  map (fun p : call * nat => ratio (fst p))
    (List.filter (fun p : call * nat => is_resampler (fst p))
       (created (events_since sample_boot (snd (pirate_radio sample_boot)))))
  = [Some (25, 6); Some (10, 1)].
Proof.
  pose proof (proj1 (resampler_ratios sample_boot eq_refl)) as H.
  apply (f_equal (map (fun q : string * option pyval * option pyval
                                * option (Z * Z) => snd q))) in H.
  rewrite map_map in H. exact H.
Defined.

(** ** The program *)

(** What a quiet run of [main] does, read off one symbolic run. *)
Lemma main_summary (s : state) :
  quiet s ->
  exists new,
    appends s (snd (main s)) new
    /\ fst (main s) = Ok tt
    /\ omap phase_of (calls_of new)
       = [Container; Block; Block; Block; Block; Block;
          Connection; Connection; Connection; Connection; Start; EventLoop]
    /\ map fst (List.filter (fun p : call * nat => is_block (fst p))
                  (created new))
       = [Call VNone "soapy.sink"
            [VStr "driver=hackrf"; VStr "fc32"; VInt 1; VStr ""; VStr "";
             VList [VStr ""]; VList [VStr ""]] [];
          Call VNone "filter.rational_resampler_ccc" []
            [("interpolation", VInt 2000000); ("decimation", VInt 480000);
             ("taps", VList []); ("fractional_bw", VInt 0)];
          Call VNone "filter.rational_resampler_fff" []
            [("interpolation", VInt 480000); ("decimation", VInt 48000);
             ("taps", VList []); ("fractional_bw", VInt 0)];
          Call VNone "blocks.wavfile_source"
            [VStr "audio/example_1mb.wav"; VBool true] [];
          Call VNone "analog.nbfm_tx" []
            [("audio_rate", VInt 480000); ("quad_rate", VInt 480000);
             ("tau", VFloat 75e-6); ("max_dev", VInt 75000);
             ("fh", VFloat (-1.0))]]
    /\ List.filter (named "connect") (calls_of new)
       = [connect (16 + next_obj s) (13 + next_obj s);
          connect (15 + next_obj s) (14 + next_obj s);
          connect (14 + next_obj s) (16 + next_obj s);
          connect (13 + next_obj s) (12 + next_obj s)]
    /\ hd_error (calls_of new)
       = Some (Call VNone "Qt.QApplication" [VConst "sys.argv"] [])
    /\ last (calls_of new) = Some (Call (VObj (next_obj s)) "exec_" [] [])
    /\ List.filter (named "signal.signal") (calls_of new)
       = [Call VNone "signal.signal"
            [VConst "signal.SIGINT"; VFun fn_sig_handler] [];
          Call VNone "signal.signal"
            [VConst "signal.SIGTERM"; VFun fn_sig_handler] []]
    /\ calls_of (firstn 9 new)
       = [Call VSelf "start" [] [];
          Call (VObj (8 + next_obj s)) "set" [] [];
          Call VSelf "show" [] [];
          Call VNone "signal.signal"
            [VConst "signal.SIGINT"; VFun fn_sig_handler] [];
          Call VNone "signal.signal"
            [VConst "signal.SIGTERM"; VFun fn_sig_handler] [];
          Call VNone "Qt.QTimer" [] [];
          Call (VObj (17 + next_obj s)) "start" [VInt 500] [];
          Call (VObj (17 + next_obj s)) "timeout.connect" [VFun fn_noop] [];
          Call (VObj (next_obj s)) "exec_" [] []].
Proof.
  destruct s as [d t n st g err f o]. intros Hq.
  unfold quiet in Hq; cbn in Hq; subst f.
  cbn [next_obj].
  match goal with
  | |- exists new, appends ?s0 (snd (?m ?s0)) new /\ _ =>
      pattern (fst (m s0)), (snd (m s0));
      match goal with
      | |- ?Q _ _ => set (P := Q); change (wp m P s0)
      end
  end.
  wp_go.
  match goal with
  | |- wp (if ?b then _ else _) _ _ => destruct b
  end.
  all: wp_go.
  all: subst P; cbv beta.
  all: read_appended.
  all: vm_compute.
  all: repeat split.
Qed.

(** The calls [sig_handler] makes. *)
Lemma sig_handler_calls (s : state) :
  quiet s ->
  fst (sig_handler s) = Ok tt
  /\ calls_since s (snd (sig_handler s))
     = [Call VSelf "stop" [] []; Call VSelf "wait" [] [];
        Call VNone "Qt.QApplication.quit" [] []].
Proof.
  destruct s as [d t n st g err f o]. intros Hq.
  start sig_handler
    (fun (r : res unit) s' =>
       r = Ok tt
       /\ calls_since (State d t n st g err no_faults o) s'
          = [Call VSelf "stop" [] []; Call VSelf "wait" [] [];
             Call VNone "Qt.QApplication.quit" [] []]).
  wp_go. read_log. split; reflexivity.
Qed.

(** C3. A run of [main] whose external calls succeed returns normally, and
    among its calls the five steps come in this order and number: one
    container set up ([gr.top_block.__init__]), five blocks made, four
    connections declared, the flow graph started ([tb.start()]), the event
    loop entered ([qapp.exec_()]).  The five blocks are made with the
    constants written in the source; each connection joins two block
    ports; the first call makes the application object and the last is its
    event loop.  Until then the handler registered for [SIGINT] and
    [SIGTERM] is [sig_handler], which stops the flow graph, waits for it and
    quits the application. *)
Theorem program_steps (s : state) :
  quiet s ->
  fst (main s) = Ok tt
  /\ omap phase_of (calls_since s (snd (main s)))
     = [Container; Block; Block; Block; Block; Block;
        Connection; Connection; Connection; Connection; Start; EventLoop]
  /\ map fst (List.filter (fun p : call * nat => is_block (fst p))
                (created (events_since s (snd (main s)))))
     = [Call VNone "soapy.sink"
          [VStr "driver=hackrf"; VStr "fc32"; VInt 1; VStr ""; VStr "";
           VList [VStr ""]; VList [VStr ""]] [];
        Call VNone "filter.rational_resampler_ccc" []
          [("interpolation", VInt 2000000); ("decimation", VInt 480000);
           ("taps", VList []); ("fractional_bw", VInt 0)];
        Call VNone "filter.rational_resampler_fff" []
          [("interpolation", VInt 480000); ("decimation", VInt 48000);
           ("taps", VList []); ("fractional_bw", VInt 0)];
        Call VNone "blocks.wavfile_source"
          [VStr "audio/example_1mb.wav"; VBool true] [];
        Call VNone "analog.nbfm_tx" []
          [("audio_rate", VInt 480000); ("quad_rate", VInt 480000);
           ("tau", VFloat 75e-6); ("max_dev", VInt 75000);
           ("fh", VFloat (-1.0))]]
  /\ length (omap edge_of (List.filter (named "connect")
                             (calls_since s (snd (main s))))) = 4%nat
  /\ hd_error (calls_since s (snd (main s)))
     = Some (Call VNone "Qt.QApplication" [VConst "sys.argv"] [])
  /\ last (calls_since s (snd (main s)))
     = Some (Call (VObj (next_obj s)) "exec_" [] [])
  /\ List.filter (named "signal.signal") (calls_since s (snd (main s)))
     = [Call VNone "signal.signal"
          [VConst "signal.SIGINT"; VFun fn_sig_handler] [];
        Call VNone "signal.signal"
          [VConst "signal.SIGTERM"; VFun fn_sig_handler] []]
  /\ forall s', quiet s' ->
       fst (sig_handler s') = Ok tt
       /\ calls_since s' (snd (sig_handler s'))
          = [Call VSelf "stop" [] []; Call VSelf "wait" [] [];
             Call VNone "Qt.QApplication.quit" [] []].
Proof.
  intros Hq.
  destruct (main_summary s Hq)
    as (new & Happ & Hok & Hphases & Hblocks & Hedges & Hfirst & Hlast
        & Hsignals & _).
  destruct (since_of_appends _ _ _ Happ) as [-> ->].
  split; [exact Hok|]. split; [exact Hphases|]. split; [exact Hblocks|].
  split; [now rewrite Hedges|]. split; [exact Hfirst|].
  split; [exact Hlast|]. split; [exact Hsignals|].
  apply sig_handler_calls.
Qed.

(** C3 on the run from process start. *)
Lemma program_steps_witness :
  omap phase_of (calls_since sample_boot (snd (main sample_boot)))
  = [Container; Block; Block; Block; Block; Block;
     Connection; Connection; Connection; Connection; Start; EventLoop].
Proof. exact (proj1 (proj2 (program_steps sample_boot eq_refl))). Defined.

(** ** The persisted geometry *)

Lemma store_get_put_eq k v m : store_get k (store_put k v m) = Some v.
Proof.
  unfold store_get, store_put.
  first [apply lookup_insert_eq | apply lookup_insert].
Qed.

Lemma store_get_put_ne k k' v m :
  k <> k' -> store_get k (store_put k' v m) = store_get k m.
Proof.
  intros H. unfold store_get, store_put.
  first [now apply lookup_insert_ne | apply lookup_insert_ne; congruence].
Qed.

(** What a quiet [closeEvent] does. *)
Lemma close_summary (s : state) (ev : nat) :
  quiet s ->
  fst (closeEvent (VObj ev) s) = Ok tt
  /\ calls_since s (snd (closeEvent (VObj ev) s))
     = [Call VNone "Qt.QSettings"
          [VStr "gnuradio/flowgraphs"; VStr "pirate_radio"] [];
        Call VSelf "saveGeometry" [] [];
        Call (VObj (next_obj s)) "setValue" [VStr "geometry"; geometry s] [];
        Call VSelf "stop" [] []; Call VSelf "wait" [] [];
        Call (VObj ev) "accept" [] []]
  /\ qstore (snd (closeEvent (VObj ev) s))
     = store_put geometry_key (geometry s) (qstore s)
  /\ geometry (snd (closeEvent (VObj ev) s)) = geometry s.
Proof.
  destruct s as [d t n st g err f o]. intros Hq.
  start (closeEvent (VObj ev))
    (fun (r : res unit) s' =>
       r = Ok tt
       /\ calls_since (State d t n st g err no_faults o) s'
          = [Call VNone "Qt.QSettings"
               [VStr "gnuradio/flowgraphs"; VStr "pirate_radio"] [];
             Call VSelf "saveGeometry" [] [];
             Call (VObj n) "setValue" [VStr "geometry"; g] [];
             Call VSelf "stop" [] []; Call VSelf "wait" [] [];
             Call (VObj ev) "accept" [] []]
       /\ qstore s' = store_put geometry_key g st
       /\ geometry s' = g).
  wp_go. read_log. repeat split.
Qed.

(** Whatever fails, [closeEvent] writes no key but the geometry's. *)
Lemma close_writes_only (s : state) (ev : nat) k :
  k <> geometry_key ->
  store_get k (qstore (snd (closeEvent (VObj ev) s))) = store_get k (qstore s).
Proof.
  destruct s as [d t n st g err f o]. intros Hk.
  apply (wp_run (closeEvent (VObj ev))
           (fun _ s' => store_get k (qstore s') = store_get k st)).
  wp_go; cbn [qstore]; first [reflexivity | now apply store_get_put_ne].
Qed.

(** C6. (1) A [closeEvent] whose external calls succeed makes, in order:
    the settings object for ("gnuradio/flowgraphs", "pirate_radio"),
    [saveGeometry()], [setValue("geometry", ...)] with the saved geometry,
    [stop()], [wait()], and only then [event.accept()]; afterwards the
    store holds the window geometry under that key.  (2) The constructor
    makes the settings object for the same pair, reads the key "geometry"
    from it, and restores the value it finds if it is truthy.  (3) Nothing
    else is persisted: whatever fails, [closeEvent] writes no other key, and
    the constructor, [main], the signal handler and the setters leave the
    store as it is. *)
Theorem geometry_persistence :
  (forall s ev,
      quiet s ->
      fst (closeEvent (VObj ev) s) = Ok tt
      /\ calls_since s (snd (closeEvent (VObj ev) s))
         = [Call VNone "Qt.QSettings"
              [VStr "gnuradio/flowgraphs"; VStr "pirate_radio"] [];
            Call VSelf "saveGeometry" [] [];
            Call (VObj (next_obj s)) "setValue"
              [VStr "geometry"; geometry s] [];
            Call VSelf "stop" [] []; Call VSelf "wait" [] [];
            Call (VObj ev) "accept" [] []]
      /\ qstore (snd (closeEvent (VObj ev) s))
         = store_put ("gnuradio/flowgraphs", "pirate_radio", "geometry")
             (geometry s) (qstore s))
  /\ (forall s,
        quiet s ->
        List.filter (fun c => named "Qt.QSettings" c || named "value" c
                              || named "restoreGeometry" c)
          (calls_since s (snd (pirate_radio s)))
        = (Call VNone "Qt.QSettings"
             [VStr "gnuradio/flowgraphs"; VStr "pirate_radio"] []
           :: Call (VObj (6 + next_obj s)) "value" [VStr "geometry"] []
           :: (if py_bool (stored_geometry s)
               then [Call VSelf "restoreGeometry" [stored_geometry s] []]
               else []))%list
        /\ stored_geometry s
           = default VNone
               (store_get ("gnuradio/flowgraphs", "pirate_radio", "geometry")
                  (qstore s))
        /\ geometry (snd (pirate_radio s))
           = (if py_bool (stored_geometry s) then stored_geometry s
              else geometry s))
  /\ (forall s ev k,
        k <> ("gnuradio/flowgraphs", "pirate_radio", "geometry") ->
        store_get k (qstore (snd (closeEvent (VObj ev) s)))
        = store_get k (qstore s))
  /\ keeps Settings pirate_radio /\ keeps Settings main
  /\ keeps Settings sig_handler
  /\ (forall v,
        keeps Settings (set_rf_freq v)
        /\ keeps Settings (set_transmit_status_label v)
        /\ keeps Settings (set_rf_rate v)
        /\ keeps Settings (set_quad_rate v)
        /\ keeps Settings (set_audio_rate v)).
Proof.
  split; [|split; [|split]].
  - intros s ev Hq.
    destruct (close_summary s ev Hq) as (Hok & Hcalls & Hstore & _). auto.
  - intros s Hq.
    destruct (construction_summary s Hq)
      as (new & Happ & _ & _ & _ & _ & _ & _ & Hcalls & Hgeom & _).
    destruct (since_of_appends _ _ _ Happ) as [_ ->].
    split; [exact Hcalls|]. split; [|exact Hgeom].
    unfold stored_geometry, geometry_key.
    now destruct (store_get _ _).
  - intros s ev k Hk. now apply close_writes_only.
  - split; [apply keeps_pirate_radio; discriminate|].
    split; [apply keeps_main; discriminate|].
    split; [apply keeps_sig_handler|]. intros v.
    split; [apply keeps_set_rf_freq|].
    split; [apply keeps_set_transmit_status_label|].
    split; [apply keeps_set_rf_rate|].
    split; apply keeps_setattr.
Qed.

(** C6 at process start: closing stores the geometry of the window. *)
Lemma geometry_persistence_witness :
  qstore (snd (closeEvent (VObj 0) sample_boot))
  = store_put ("gnuradio/flowgraphs", "pirate_radio", "geometry")
      (VBytes "geometry-bytes") ∅.
Proof.
  exact (proj2 (proj2 (proj1 geometry_persistence sample_boot 0%nat eq_refl))).
Defined.

(** ** Failures *)

(** The constructor when only calls inside the two [try] statements
    raise. *)
Lemma guarded_absorbed (s : state) (g : list event -> call -> option exn) :
  faults s = guarded_only g ->
  exists new,
    appends s (snd (pirate_radio s)) new
    /\ fst (pirate_radio s) = Ok tt
    /\ stderr (snd (pirate_radio s)) = (omap report new ++ stderr s)%list
    /\ map (fun p : call * nat => fname (fst p))
         (List.filter (fun p : call * nat => is_block (fst p)) (created new))
       = ["soapy.sink"; "filter.rational_resampler_ccc";
          "filter.rational_resampler_fff"; "blocks.wavfile_source";
          "analog.nbfm_tx"]
    /\ length (List.filter (named "connect") (calls_of new)) = 4%nat.
Proof.
  destruct s as [d t n st gm err f o]. intros Hq.
  cbn in Hq; subst f.
  cbn [qstore next_obj opaque geometry stderr].
  match goal with
  | |- exists new, appends ?s0 (snd (?m ?s0)) new /\ _ =>
      pattern (fst (m s0)), (snd (m s0));
      match goal with
      | |- ?Q _ _ => set (P := Q); change (wp m P s0)
      end
  end.
  wp_go.
  all: try match goal with
         | |- wp (if ?b then _ else _) _ _ => destruct b
         end.
  all: wp_go.
  all: subst P; cbv beta.
  all: read_appended.
  all: vm_compute.
  all: repeat split.
Qed.

Lemma guarded_names (c : call) :
  guarded c = true
  <-> In (fname c)
        ["Qt.QIcon.fromTheme"; "setWindowIcon"; "value"; "restoreGeometry"].
Proof.
  unfold guarded, named. cbn [In].
  rewrite !orb_true_iff, !String.eqb_eq. intuition auto.
Qed.

(** C5. (1) When only the calls inside the two [try] statements of the
    constructor raise -- the icon lookup and its installation, the read of
    the stored geometry and its restoration -- whatever they raise, the
    constructor returns normally, has printed one line on standard error
    for each call that raised ("Qt GUI: Could not set Icon: ..." or
    "Qt GUI: Could not restore geometry: ..." with the text of the
    exception), and has made the five blocks and the four connections.
    (2) Those are the only guarded calls: in the constructor and in [main],
    a call that raises outside the two [try] statements is the last call
    made, and its exception is the one the run ends with.  (3) Nothing is
    guarded in [closeEvent], the signal handler and the setters: there every
    call that raises ends the run with its exception. *)
Theorem guarded_failures :
  (forall s g,
      faults s = guarded_only g ->
      fst (pirate_radio s) = Ok tt
      /\ stderr (snd (pirate_radio s))
         = (omap report (events_since s (snd (pirate_radio s)))
            ++ stderr s)%list
      /\ map (fun p : call * nat => fname (fst p))
           (List.filter (fun p : call * nat => is_block (fst p))
              (created (events_since s (snd (pirate_radio s)))))
         = ["soapy.sink"; "filter.rational_resampler_ccc";
            "filter.rational_resampler_fff"; "blocks.wavfile_source";
            "analog.nbfm_tx"]
      /\ length (List.filter (named "connect")
                   (calls_since s (snd (pirate_radio s)))) = 4%nat)
  /\ (forall c,
        guarded c = true
        <-> In (fname c)
              ["Qt.QIcon.fromTheme"; "setWindowIcon"; "value";
               "restoreGeometry"])
  /\ tolerates (fun c => guarded c = true) pirate_radio
  /\ tolerates (fun c => guarded c = true) main
  /\ (forall ev v,
        tolerates (fun _ => False) (closeEvent ev)
        /\ tolerates (fun _ => False) sig_handler
        /\ tolerates (fun _ => False) (set_rf_freq v)
        /\ tolerates (fun _ => False) (set_transmit_status_label v)
        /\ tolerates (fun _ => False) (set_rf_rate v)
        /\ tolerates (fun _ => False) (set_quad_rate v)
        /\ tolerates (fun _ => False) (set_audio_rate v)).
Proof.
  split; [|split; [|split; [|split]]].
  - intros s g Hg.
    destruct (guarded_absorbed s g Hg)
      as (new & Happ & Hok & Herr & Hblocks & Hconn).
    destruct (since_of_appends _ _ _ Happ) as [-> ->]. auto.
  - apply guarded_names.
  - apply tol_pirate_radio.
  - apply tol_main.
  - intros ev v.
    split; [apply tol_closeEvent|]. split; [apply tol_sig_handler|].
    split; [apply tol_set_rf_freq|].
    split; [apply tol_set_transmit_status_label|].
    split; [apply tol_set_rf_rate|]. split; apply tol_setattr.
Qed.

(** C5 on a run in which the icon theme is missing. *)
Lemma guarded_failures_witness :
  fst (pirate_radio sample_icon_fault) = Ok tt
  /\ stderr (snd (pirate_radio sample_icon_fault))
     = ["Qt GUI: Could not set Icon: no theme"].
Proof.
  destruct (proj1 guarded_failures sample_icon_fault icon_fails eq_refl)
    as (Hok & Herr & _).
  split; [exact Hok|]. rewrite Herr. vm_compute. reflexivity.
Defined.

(** ** Beyond the happy path *)

(** X3. [set_rf_freq] with a value that cannot be divided by [1e6]: the
    attribute is bound before the division fails, and nothing else
    happens -- the label and the sink keep the old frequency.  The division
    fails only on a value that is not a number ([TypeError]) or on an
    integer beyond the float range ([OverflowError]). *)
Theorem set_rf_freq_rejects (s : state) (F : pyval) (e : exn) :
  truediv_float F 1e6 = Raise e ->
  set_rf_freq F s = (Raise e, with_self (("rf_freq", F) :: self s) s)
  /\ (exc_class e = "TypeError" \/ exc_class e = "OverflowError")
  /\ (forall f, F <> VFloat f) /\ (forall b, F <> VBool b).
Proof.
  intros H. split; [|split; [|split]].
  - destruct s as [d t n st g err f o].
    unfold set_rf_freq, bind, setattr, getattr, lift. cbn. now rewrite H.
  - destruct F; cbn in H; try (injection H as <-; now left).
    + discriminate.
    + unfold int_to_float in H.
      destruct (PrimFloat.is_infinity _); [|discriminate].
      injection H as <-. now right.
    + discriminate.
  - intros f ->. discriminate.
  - intros b ->. discriminate.
Qed.

(** On a string. *)
Lemma set_rf_freq_rejects_witness :
  exists e,
    set_rf_freq (VStr "fm") sample_boot
    = (Raise e, with_self [("rf_freq", VStr "fm")] sample_boot)
    /\ exc_class e = "TypeError".
Proof.
  eexists.
  split;
    [ exact (proj1 (set_rf_freq_rejects sample_boot (VStr "fm") _ eq_refl))
    | reflexivity ].
Defined.

(** X4. Whatever the external calls do, [set_rf_freq] rebinds no attribute but
    [rf_freq] and [transmit_status_label], [set_transmit_status_label] none
    but [transmit_status_label], and neither they nor [set_rf_rate] nor the
    signal handler touch the persisted settings, the window geometry or
    standard error. *)
Theorem setters_touch_only (v : pyval) :
  (forall name,
      ~ In name ["rf_freq"; "transmit_status_label"] ->
      frames name (set_rf_freq v))
  /\ (forall name,
        name <> "transmit_status_label" ->
        frames name (set_transmit_status_label v))
  /\ (forall p,
        keeps p (set_rf_freq v) /\ keeps p (set_transmit_status_label v)
        /\ keeps p (set_rf_rate v) /\ keeps p (set_quad_rate v)
        /\ keeps p (set_audio_rate v) /\ keeps p sig_handler).
Proof.
  split; [|split].
  - intros name H. apply frames_set_rf_freq; intros <-; apply H; cbn; auto.
  - intros name H. apply frames_set_transmit_status_label. congruence.
  - intros p.
    split; [apply keeps_set_rf_freq|].
    split; [apply keeps_set_transmit_status_label|].
    split; [apply keeps_set_rf_rate|].
    split; [apply keeps_setattr|].
    split; [apply keeps_setattr | apply keeps_sig_handler].
Qed.

(** At a concrete instance: retuning leaves the rates alone. *)
Lemma setters_touch_only_witness :
  attr "rf_rate" (snd (set_rf_freq (VFloat 90.1e6)
                         (snd (pirate_radio sample_boot))))
  = attr "rf_rate" (snd (pirate_radio sample_boot)).
Proof.
  apply (proj1 (setters_touch_only (VFloat 90.1e6)) "rf_rate").
  cbn. intros [H|[H|[]]]; discriminate.
Defined.



(** X6. [closeEvent] persists the geometry before it stops the flow graph: when
    [stop()] raises, the geometry is already stored, and neither [wait()]
    nor [event.accept()] is called.  Whatever fails, the event is accepted
    exactly when [closeEvent] returns normally. *)
Theorem close_stores_before_stopping :
  (forall s ev e,
      faults s = fails_at "stop" e ->
      fst (closeEvent (VObj ev) s) = Raise e
      /\ qstore (snd (closeEvent (VObj ev) s))
         = store_put geometry_key (geometry s) (qstore s)
      /\ map fname (calls_since s (snd (closeEvent (VObj ev) s)))
         = ["Qt.QSettings"; "saveGeometry"; "setValue"; "stop"])
  /\ (forall s ev,
        fst (closeEvent (VObj ev) s) = Ok tt
        <-> In (Call (VObj ev) "accept" [] [], Returned VNone)
              (events_since s (snd (closeEvent (VObj ev) s)))).
Proof.
  split.
  - intros [d t n st g err f o] ev e Hf. cbn in Hf. subst f.
    apply (wp_run (closeEvent (VObj ev))
             (fun (r : res unit) s' =>
                r = Raise e
                /\ qstore s' = store_put geometry_key g st
                /\ map fname
                     (calls_since (State d t n st g err (fails_at "stop" e) o)
                        s')
                   = ["Qt.QSettings"; "saveGeometry"; "setValue"; "stop"])).
    wp_go. read_log. repeat split.
  - intros [d t n st g err f o] ev.
    apply (wp_run (closeEvent (VObj ev))
             (fun (r : res unit) s' =>
                r = Ok tt
                <-> In (Call (VObj ev) "accept" [] [], Returned VNone)
                      (events_since (State d t n st g err f o) s'))).
    wp_go; read_log; cbn [In]; split; intros H;
      first [ discriminate H | reflexivity | now left
            | repeat (destruct H as [H|H]; [discriminate H|]); destruct H ].
Qed.

(** With a flow graph that refuses to stop. *)
Lemma close_stores_before_stopping_witness :
  qstore (snd (closeEvent (VObj 0)
                 (boot ∅ (VBytes "geometry-bytes")
                    (fails_at "stop" (Exn "RuntimeError" "busy"))
                    sample_opaque)))
  = store_put geometry_key (VBytes "geometry-bytes") ∅.
Proof.
  exact (proj1 (proj2 (proj1 close_stores_before_stopping
           (boot ∅ (VBytes "geometry-bytes")
              (fails_at "stop" (Exn "RuntimeError" "busy")) sample_opaque)
           0%nat (Exn "RuntimeError" "busy") eq_refl))).
Defined.

(** ** From one run to the next *)

Lemma restore_calls (s : state) :
  quiet s ->
  List.filter (named "restoreGeometry") (calls_since s (snd (pirate_radio s)))
  = (if py_bool (stored_geometry s)
     then [Call VSelf "restoreGeometry" [stored_geometry s] []]
     else [])
  /\ geometry (snd (pirate_radio s))
     = (if py_bool (stored_geometry s) then stored_geometry s else geometry s)
  /\ stderr (snd (pirate_radio s)) = stderr s.
Proof.
  intros Hq.
  destruct (construction_summary s Hq)
    as (new & Happ & _ & _ & _ & _ & _ & _ & Hcalls & Hgeom & _ & Herr & _).
  destruct (since_of_appends _ _ _ Happ) as [_ ->].
  split; [|split; [exact Hgeom | exact Herr]].
  rewrite <- (filter_narrow _ (fun c => named "Qt.QSettings" c
                                      || named "value" c
                                      || named "restoreGeometry" c)).
  - rewrite Hcalls. cbn. now destruct (py_bool (stored_geometry s)).
  - intros c ->. now rewrite !orb_true_r.
Qed.

(** X1. What [closeEvent] stored is what the next construction restores: after
    a close whose calls succeed, a constructor that starts from the resulting
    store -- in the same or in a later process -- calls [restoreGeometry]
    once, with the geometry the window had at the close, provided that
    geometry is truthy (a non-empty byte array); for a falsy one it does not
    call [restoreGeometry] at all. *)
Theorem geometry_round_trip (s s2 : state) (ev : nat) :
  quiet s -> quiet s2 ->
  qstore s2 = qstore (snd (closeEvent (VObj ev) s)) ->
  List.filter (named "restoreGeometry")
    (calls_since s2 (snd (pirate_radio s2)))
  = (if py_bool (geometry s)
     then [Call VSelf "restoreGeometry" [geometry s] []] else [])
  /\ geometry (snd (pirate_radio s2))
     = (if py_bool (geometry s) then geometry s else geometry s2).
Proof.
  intros Hq Hq2 Hstore.
  destruct (close_summary s ev Hq) as (_ & _ & Hput & _).
  destruct (restore_calls s2 Hq2) as (Hcalls & Hgeom & _).
  assert (stored_geometry s2 = geometry s) as Hsg.
  { unfold stored_geometry. now rewrite Hstore, Hput, store_get_put_eq. }
  rewrite Hsg in Hcalls, Hgeom. auto.
Qed.

(** A window closed in one process and opened in the next. *)
Lemma geometry_round_trip_witness :
  geometry
    (snd (pirate_radio
            (boot (qstore (snd (closeEvent (VObj 0) sample_boot)))
               (VBytes "default") no_faults sample_opaque)))
  = VBytes "geometry-bytes".
Proof.
  exact (proj2 (geometry_round_trip sample_boot
                  (boot (qstore (snd (closeEvent (VObj 0) sample_boot)))
                     (VBytes "default") no_faults sample_opaque)
                  0%nat eq_refl eq_refl eq_refl)).
Defined.

(** X2. On a first run, when no geometry has been stored, a constructor whose
    calls succeed does not call [restoreGeometry], leaves the window
    geometry as it is and prints nothing on standard error. *)
Theorem first_run_keeps_geometry (s : state) :
  quiet s ->
  store_get ("gnuradio/flowgraphs", "pirate_radio", "geometry") (qstore s)
  = None ->
  List.filter (named "restoreGeometry") (calls_since s (snd (pirate_radio s)))
  = []
  /\ geometry (snd (pirate_radio s)) = geometry s
  /\ stderr (snd (pirate_radio s)) = stderr s.
Proof.
  intros Hq Hnone.
  destruct (restore_calls s Hq) as (Hcalls & Hgeom & Herr).
  assert (stored_geometry s = VNone) as Hsg.
  { unfold stored_geometry, geometry_key. now rewrite Hnone. }
  rewrite Hsg in Hcalls, Hgeom. auto.
Qed.

(** With an empty store. *)
Lemma first_run_keeps_geometry_witness :
  geometry (snd (pirate_radio sample_boot)) = VBytes "geometry-bytes".
Proof.
  exact (proj1 (proj2 (first_run_keeps_geometry sample_boot eq_refl eq_refl))).
Defined.

(** ** The sink follows the fields *)

Lemma last_call_app f c new t :
  last_call f new = Some c -> last_call f (new ++ t) = Some c.
Proof.
  induction new as [|[c' o] new IH]; [discriminate|]. cbn.
  destruct o; auto. destruct (named f c'); auto.
Qed.

Ltac sync_after m :=
  apply (wp_run m (fun _ s' => in_sync s')); wp_go;
  eexists _, _, _; unfold attr; cbn;
  repeat split; first [eassumption | reflexivity].

(** X8. The frequency and the sample rate the sink was last given are the
    values of [rf_freq] and [rf_rate]: the constructor establishes this, and
    every setter keeps it, in runs whose external calls succeed. *)
Theorem sink_follows_fields :
  (forall s, quiet s -> in_sync (snd (pirate_radio s)))
  /\ (forall s v,
        quiet s -> in_sync s ->
        in_sync (snd (set_rf_rate v s))
        /\ in_sync (snd (set_quad_rate v s))
        /\ in_sync (snd (set_audio_rate v s)))
  /\ (forall s v label sink,
        quiet s -> constructed label sink s -> in_sync s ->
        in_sync (snd (set_transmit_status_label v s))
        /\ forall q, truediv_float v 1e6 = Ok q ->
                     in_sync (snd (set_rf_freq v s))).
Proof.
  split; [|split].
  - intros s Hq.
    destruct (construction_summary s Hq)
      as (new & Happ & _ & _ & _ & _ & Hattrs & Hvars & _ & _ & _ & _ & _
          & Hfreq & Hrate).
    injection Hattrs as _ _ _ _ Hsink _ _. injection Hvars as Hf _ Hr _ _.
    exists (11 + next_obj s)%nat, (VFloat 102.2e6), (VInt 2000000).
    rewrite Happ.
    repeat split; first [assumption | now apply last_call_app].
  - intros [d t n st g err f o] v Hq (sink & fr & r & Hs & Hf & Hr & Hlf & Hlr).
    unfold quiet, attr in * |-. cbn in * |-. subst f.
    split; [|split].
    + sync_after (set_rf_rate v).
    + exists sink, fr, r. unfold attr. cbn. auto.
    + exists sink, fr, r. unfold attr. cbn. auto.
  - intros [d t n st g err f o] v label sink0 Hq [Hl [Hfm Hs0]]
      (sink & fr & r & Hs & Hf & Hr & Hlf & Hlr).
    unfold quiet, attr in * |-. cbn in * |-. subst f.
    rewrite Hs0 in Hs. injection Hs as <-.
    split; [|intros q Hdiv].
    + sync_after (set_transmit_status_label v).
    + sync_after (set_rf_freq v).
Qed.

(** On the instance [main] builds, clocked at 1 MHz. *)
Lemma sink_follows_fields_witness :
  in_sync (snd (set_rf_rate (VInt 1000000) (snd (pirate_radio sample_boot)))).
Proof.
  refine (proj1 (proj1 (proj2 sink_follows_fields)
                   (snd (pirate_radio sample_boot)) (VInt 1000000) _ _)).
  - vm_compute. reflexivity.
  - exact (proj1 sink_follows_fields sample_boot eq_refl).
Defined.

(** ** A block that cannot be made *)

Ltac run_to_end :=
  match goal with
  | |- exists new, appends ?s0 (snd (?m ?s0)) new /\ _ =>
      pattern (fst (m s0)), (snd (m s0));
      match goal with
      | |- ?Q _ _ =>
          let P := fresh "P" in
          set (P := Q); change (wp m P s0);
          wp_go;
          try match goal with
            | |- wp (if ?b then _ else _) _ _ => destruct b
            end;
          wp_go; subst P; cbv beta
      end
  end;
  read_appended;
  repeat match goal with
    | |- context [store_get ?k ?m] => generalize (store_get k m); intro
    end;
  vm_compute; repeat split.

Lemma block_failure_run (s : state) (f : string) (e : exn) :
  In f ["soapy.sink"; "filter.rational_resampler_ccc";
        "filter.rational_resampler_fff"; "blocks.wavfile_source";
        "analog.nbfm_tx"] ->
  faults s = fails_at f e ->
  exists new,
    appends s (snd (main s)) new
    /\ fst (main s) = Raise e
    /\ forallb before_wiring (omap phase_of (calls_of new)) = true
    /\ map (fun ev : event => (fname (fst ev), snd ev)) (firstn 1 new)
       = [(f, Raised e)]
    /\ stderr (snd (main s)) = stderr s.
Proof.
  destruct s as [d t n st g err fl o]. intros Hin Hf.
  cbn in Hf. subst fl.
  cbn [stderr].
  cbn [In] in Hin.
  repeat (destruct Hin as [<-|Hin]; [run_to_end|]).
  destruct Hin.
Qed.

(** X7. When one of the five blocks cannot be made -- the SDR is not plugged
    in, the WAV file is missing -- [main] ends with the exception the
    constructor of the block raised: that call is the last one made, no
    connection has been declared, the flow graph has not been started, the
    event loop has not been entered, and nothing was printed on standard
    error. *)
Theorem main_stops_at_failed_block (s : state) (f : string) (e : exn) :
  In f ["soapy.sink"; "filter.rational_resampler_ccc";
        "filter.rational_resampler_fff"; "blocks.wavfile_source";
        "analog.nbfm_tx"] ->
  faults s = fails_at f e ->
  fst (main s) = Raise e
  /\ forallb before_wiring (omap phase_of (calls_since s (snd (main s))))
     = true
  /\ map (fun ev : event => (fname (fst ev), snd ev))
       (firstn 1 (events_since s (snd (main s))))
     = [(f, Raised e)]
  /\ stderr (snd (main s)) = stderr s.
Proof.
  intros Hin Hf.
  destruct (block_failure_run s f e Hin Hf)
    as (new & Happ & Hres & Hphases & Hlast & Herr).
  destruct (since_of_appends _ _ _ Happ) as [-> ->]. auto.
Qed.

(** Without the radio. *)
Lemma main_stops_at_failed_block_witness :
  fst (main (boot ∅ (VBytes "geometry-bytes")
               (fails_at "soapy.sink" (Exn "RuntimeError" "no device"))
               sample_opaque))
  = Raise (Exn "RuntimeError" "no device").
Proof.
  refine (proj1 (main_stops_at_failed_block
                   (boot ∅ (VBytes "geometry-bytes")
                      (fails_at "soapy.sink" (Exn "RuntimeError" "no device"))
                      sample_opaque)
                   "soapy.sink" (Exn "RuntimeError" "no device") _ eq_refl)).
  cbn. auto.
Defined.

(** X9. Whatever fails, the signal handler quits the application only after
    [stop()] and [wait()] have both returned; and it returns normally exactly
    when [Qt.QApplication.quit()] has returned. *)
Theorem handler_quits_after_stop (s : state) :
  (In (Call VNone "Qt.QApplication.quit" [] [])
      (calls_since s (snd (sig_handler s)))
   <-> In (Call VSelf "stop" [] [], Returned VNone)
         (events_since s (snd (sig_handler s)))
       /\ In (Call VSelf "wait" [] [], Returned VNone)
            (events_since s (snd (sig_handler s))))
  /\ (fst (sig_handler s) = Ok tt
      <-> In (Call VNone "Qt.QApplication.quit" [] [], Returned VNone)
            (events_since s (snd (sig_handler s)))).
Proof.
  destruct s as [d t n st g err f o].
  apply (wp_run sig_handler
           (fun (r : res unit) s' =>
              (In (Call VNone "Qt.QApplication.quit" [] [])
                 (calls_since (State d t n st g err f o) s')
               <-> In (Call VSelf "stop" [] [], Returned VNone)
                     (events_since (State d t n st g err f o) s')
                   /\ In (Call VSelf "wait" [] [], Returned VNone)
                        (events_since (State d t n st g err f o) s'))
              /\ (r = Ok tt
                  <-> In (Call VNone "Qt.QApplication.quit" [] [],
                          Returned VNone)
                        (events_since (State d t n st g err f o) s')))).
  wp_go; read_log; cbn; intuition (try discriminate; auto).
Qed.

(** A handler whose calls all succeed. *)
Lemma handler_quits_after_stop_witness : fst (sig_handler sample_boot) = Ok tt.
Proof.
  apply (proj2 (handler_quits_after_stop sample_boot)).
  vm_compute. auto.
Defined.

(** ** The window *)

Ltac in_list := cbn [In]; repeat first [left; reflexivity | right].

(** X10. In a run of the constructor whose external calls succeed, the
    label widget held in [_transmit_status_label_label] ends up inside the
    window: through the layouts and widgets the constructor places into one
    another there is a chain from the instance down to the label (window,
    scroll layout, scroll area, inner widget, box layout, tool bar, label).
    Nothing is placed twice. *)
Theorem label_is_in_window (s : state) :
  quiet s ->
  exists label,
    attr "_transmit_status_label_label" (snd (pirate_radio s))
    = Some (VObj label)
    /\ inside (placements (events_since s (snd (pirate_radio s))))
         VSelf (VObj label)
    /\ NoDup (map snd (placements (events_since s (snd (pirate_radio s))))).
Proof.
  intros Hq.
  destruct (construction_summary s Hq)
    as (new & Happ & _ & _ & _ & _ & Hattrs & _ & _ & _ & _ & _ & _ & _ & _
        & Hplaced).
  destruct (since_of_appends _ _ _ Happ) as [-> _].
  injection Hattrs as _ _ _ _ _ Hlabel _.
  exists (10 + next_obj s)%nat. split; [exact Hlabel|].
  rewrite Hplaced. split.
  - apply (inside_trans _ _ (VObj (1 + next_obj s))); [in_list|].
    apply (inside_trans _ _ (VObj (2 + next_obj s))); [in_list|].
    apply (inside_trans _ _ (VObj (3 + next_obj s))); [in_list|].
    apply (inside_trans _ _ (VObj (4 + next_obj s))); [in_list|].
    apply (inside_trans _ _ (VObj (8 + next_obj s))); [in_list|].
    apply inside_step. in_list.
  - cbn [map snd].
    repeat (constructor;
            [rewrite ?elem_of_cons, elem_of_nil;
             intros H; repeat destruct H as [H|H];
             first [discriminate H | injection H; lia | destruct H]|]).
    constructor.
Qed.

(** On the run from process start. *)
Lemma label_is_in_window_witness :
  exists label,
    attr "_transmit_status_label_label" (snd (pirate_radio sample_boot))
    = Some (VObj label)
    /\ inside (placements (events_since sample_boot
                             (snd (pirate_radio sample_boot))))
         VSelf (VObj label).
Proof.
  destruct (label_is_in_window sample_boot eq_refl) as (label & H1 & H2 & _).
  exists label. auto.
Defined.

(** ** What closing leaves alone *)

Lemma frames_setValue name recv key v :
  frames name (qsettings_setValue recv key v).
Proof.
  apply frames_bind; [|intros; apply frames_ret].
  apply frames_method. intros s.
  destruct (settings_scope recv s) as [[org app]|]; [|reflexivity].
  apply self_with_qstore.
Qed.

(** [closeEvent] after its first statement. *)
Lemma frames_close_tail name ev :
  frames name
    (settings <- getattr "settings" ;;
     g <- saveGeometry ;;
     qsettings_setValue settings "geometry" g ;;
     invoke VSelf "stop" [] ;;
     invoke VSelf "wait" [] ;;
     invoke ev "accept" []).
Proof.
  apply frames_bind; [apply frames_getattr|]. intros settings.
  apply frames_bind; [now apply frames_method|]. intros g.
  apply frames_bind; [apply frames_setValue|]. intros _.
  repeat (apply frames_bind; [apply frames_invoke|intros _]).
  apply frames_invoke.
Qed.

Lemma frames_closeEvent name ev :
  "settings" <> name -> frames name (closeEvent ev).
Proof.
  intros H. unfold closeEvent.
  apply frames_bind; [apply frames_new|]. intros o.
  apply frames_bind; [now apply frames_setattr|]. intros _.
  apply frames_close_tail.
Qed.

Lemma keeps_closeEvent p ev : p <> Settings -> keeps p (closeEvent ev).
Proof. intros H. unfold closeEvent. keeps_go. Qed.

(** X11. [closeEvent] rebinds [self.settings] -- when its calls succeed,
    to the settings object it has just made, not the one of the
    constructor -- and, whatever fails, rebinds no other attribute, does not
    change the window geometry and prints nothing on standard error. *)
Theorem close_touches_only (ev : pyval) :
  (forall s, quiet s ->
      attr "settings" (snd (closeEvent ev s)) = Some (VObj (next_obj s)))
  /\ (forall name, name <> "settings" -> frames name (closeEvent ev))
  /\ keeps Geometry (closeEvent ev) /\ keeps Stderr (closeEvent ev).
Proof.
  split; [|split; [|split]].
  - intros [d t n st g err f o] Hq. unfold quiet in Hq. cbn in Hq. subst f.
    unfold closeEvent.
    match goal with
    | |- attr _ (snd (bind ?m ?k ?s0)) = _ =>
        change (bind m k s0) with (k (VObj n) (snd (m s0)))
    end.
    apply attr_after_setattr, frames_close_tail.
  - intros name H. apply frames_closeEvent. congruence.
  - apply keeps_closeEvent. discriminate.
  - apply keeps_closeEvent. discriminate.
Qed.

(** At process start. *)
Lemma close_touches_only_witness :
  attr "settings" (snd (closeEvent (VObj 0) sample_boot)) = Some (VObj 0).
Proof. exact (proj1 (close_touches_only (VObj 0)) sample_boot eq_refl). Defined.
